(** * Atendimento service: model, store and controller

    A shallow embedding of the backend of the psychosocial-care visit log
    (src/backend/models/AtendimentoModel.js,
     src/backend/controllers/AtendimentoController.js,
     src/backend/database/database.js) and the properties of its
    validation, sanitization and CRUD flow. *)

From Stdlib Require Import ZArith NArith String Ascii.
From Stdlib Require Import Floats.SpecFloat.
From stdpp Require Import base option list gmap sorting.

Local Open Scope N_scope.

(** ** JavaScript strings

    A JavaScript string is a sequence of UTF-16 code units.  The source
    files are UTF-8; [js] decodes a literal the way the engine reads it
    (every character used by the program is in the Basic Multilingual
    Plane, so one-, two- and three-byte sequences are enough). *)

Module JS.

Definition jsstring : Type := list N.

Fixpoint utf8_decode (bs : list N) : jsstring :=
  match bs with
  | [] => []
  | b :: rest =>
      if b <? 0x80 then b :: utf8_decode rest
      else match rest with
           | [] => []
           | c :: rest1 =>
               if b <? 0xE0 then ((b mod 0x20) * 0x40 + c mod 0x40) :: utf8_decode rest1
               else match rest1 with
                    | [] => []
                    | d :: rest2 =>
                        ((b mod 0x10) * 0x1000 + (c mod 0x40) * 0x40 + d mod 0x40)
                          :: utf8_decode rest2
                    end
           end
  end.

Definition js (s : string) : jsstring :=
  utf8_decode (N_of_ascii <$> list_ascii_of_string s).
Arguments js : simpl never.

(** WhiteSpace and LineTerminator code units of ECMAScript, the ones
    [String.prototype.trim] and [parseInt] strip. *)
Definition isWhiteSpace (c : N) : bool :=
  (c =? 0x09) || (c =? 0x0A) || (c =? 0x0B) || (c =? 0x0C) || (c =? 0x0D)
  || (c =? 0x20) || (c =? 0xA0) || (c =? 0x1680)
  || ((0x2000 <=? c) && (c <=? 0x200A))
  || (c =? 0x2028) || (c =? 0x2029) || (c =? 0x202F) || (c =? 0x205F)
  || (c =? 0x3000) || (c =? 0xFEFF).

Fixpoint trimStart (s : jsstring) : jsstring :=
  match s with
  | [] => []
  | c :: s' => if isWhiteSpace c then trimStart s' else s
  end.

Definition trimEnd (s : jsstring) : jsstring :=
  reverse (trimStart (reverse s)).

(** [String.prototype.trim] *)
Definition trim (s : jsstring) : jsstring := trimEnd (trimStart s).
Arguments trim : simpl never.

(** [Array.prototype.join] on an array of strings *)
Fixpoint join (sep : jsstring) (l : list jsstring) : jsstring :=
  match l with
  | [] => []
  | [s] => s
  | s :: l' => s ++ sep ++ join sep l'
  end.

Fixpoint startsWith (s p : jsstring) : bool :=
  match p, s with
  | [], _ => true
  | _ :: _, [] => false
  | a :: p', b :: s' => (a =? b) && startsWith s' p'
  end.

(** [String.prototype.includes] *)
Fixpoint includes (s p : jsstring) : bool :=
  startsWith s p
  || match s with
     | [] => false
     | _ :: s' => includes s' p
     end.

(** *** Values

    The values a parsed request body can hold, plus [undefined], which is
    what reading an absent property gives.  Numbers are IEEE doubles. *)
#[warnings="-register-all"]
Inductive value : Type :=
| VUndefined
| VNull
| VBoolean (b : bool)
| VNumber (x : spec_float)
| VString (s : jsstring)
| VArray (elems : list value)
| VObject (props : list (jsstring * value)).

(** An object is its list of own properties in insertion order; a
    well-formed object has each key once, and a lookup takes the first
    binding.  No property the program reads is inherited from
    [Object.prototype] or [Array.prototype]. *)
Definition object : Type := list (jsstring * value).

Fixpoint get (o : object) (k : jsstring) : value :=
  match o with
  | [] => VUndefined
  | (k', v) :: o' => if decide (k = k') then v else get o' k
  end.


(** ToBoolean: what [!x], [x ? a : b] and [x || y] test. *)
Definition ToBoolean (v : value) : bool :=
  match v with
  | VUndefined | VNull => false
  | VBoolean b => b
  | VNumber (S754_zero _) | VNumber S754_nan => false
  | VNumber _ => true
  | VString s => negb (bool_decide (s = []))
  | VArray _ | VObject _ => true
  end.

(** *** Exceptions and completions *)
Inductive exn : Type :=
| TypeError (msg : jsstring)      (* raised by the engine *)
| Error (msg : jsstring)          (* [new Error(msg)] *)
| DatabaseError (msg : jsstring). (* raised by the database driver *)

Definition message (e : exn) : jsstring :=
  match e with
  | TypeError m | Error m | DatabaseError m => m
  end.

Inductive outcome (A : Type) : Type :=
| Return (a : A)
| Throw (e : exn).
Arguments Return {A} a.
Arguments Throw {A} e.

Definition pure {A} (a : A) : outcome A := Return a.

(** Sequencing: [let* x := e in k] runs [e] and, unless it throws, runs [k]
    with its result. *)
Definition bind {A B} (m : outcome A) (f : A → outcome B) : outcome B :=
  match m with
  | Return a => f a
  | Throw e => Throw e
  end.

Notation "'let*' x ':=' e 'in' k" := (bind e (λ x, k))
  (at level 10, x name, e at level 200, k at level 200, only parsing).

(** Calling [v.trim()], written [callee.trim()] in the source: only a
    string has a callable [trim]. *)
Definition call_trim (callee : string) (v : value) : outcome jsstring :=
  match v with
  | VString s => Return (trim s)
  | VUndefined =>
      Throw (TypeError (js "Cannot read properties of undefined (reading 'trim')"))
  | VNull =>
      Throw (TypeError (js "Cannot read properties of null (reading 'trim')"))
  | _ => Throw (TypeError (js callee ++ js ".trim is not a function"))
  end.

End JS.
Import JS.

(** ** The store: database.js

    One table, [atendimento], with the schema of [initializeTables]:
<<
      id SERIAL PRIMARY KEY, nome TEXT NOT NULL, profissional TEXT NOT NULL,
      data DATE NOT NULL,
      tipo TEXT NOT NULL CHECK (tipo IN ('Psicológico', 'Pedagógico',
                                         'Assistência Social')),
      observacoes TEXT
>>
    The primary key makes the table a finite map from [id] to the other
    columns.  A date is its day number, so that [<] on it is the order of
    the calendar; [None] in a nullable column is SQL NULL.  An id is an
    integer of any size (the 32-bit range of SERIAL is left out), and a
    TEXT column keeps a string as it is. *)

Module Pg.

Definition date : Type := Z.

Record columns : Type := {
  nome : jsstring;
  profissional : jsstring;
  data : date;
  tipo : jsstring;
  observacoes : option jsstring
}.

Record row : Type := { id : Z; cols : columns }.

#[global] Instance columns_eq_dec : EqDecision columns.
Proof. solve_decision. Defined.
#[global] Instance row_eq_dec : EqDecision row.
Proof. solve_decision. Defined.

(** The five statements the model sends, each with its parameters
    [$1 .. $n] in order. *)
Inductive sql : Type :=
| SELECT_ordered
    (* SELECT id, nome, profissional, data, tipo, observacoes
       FROM atendimento ORDER BY data DESC, id DESC *)
| SELECT_by_id (p1 : Z)
    (* SELECT * FROM atendimento WHERE id = $1 *)
| INSERT (p1 p2 p3 p4 p5 : value)
    (* INSERT INTO atendimento (nome, profissional, data, tipo, observacoes)
       VALUES ($1, $2, $3, $4, $5) RETURNING * *)
| UPDATE (p1 p2 p3 p4 p5 : value) (p6 : Z)
    (* UPDATE atendimento SET nome = $1, profissional = $2, data = $3,
       tipo = $4, observacoes = $5 WHERE id = $6 RETURNING * *)
| DELETE (p1 : Z).
    (* DELETE FROM atendimento WHERE id = $1 RETURNING * *)

Inductive pg_error : Type :=
| invalid_datetime_format (v : value)
| not_null_violation (column : jsstring)
| check_violation
| unique_violation (key : Z).

(** What the program does not decide: which parameter values the server
    reads as a DATE, how the driver writes a parameter that is neither a
    string nor null into a TEXT column, and the text of the server's
    error messages. *)
Class Postgres : Type := {
  date_in : value → option date;
  driver_text : value → jsstring;
  pg_message : pg_error → jsstring
}.

(** The table, the sequence behind [id SERIAL] (its next value) and the
    statements received so far, latest first. *)
Record Database : Type := {
  atendimento : gmap Z columns;
  atendimento_id_seq : Z;
  statements : list sql
}.

Definition empty_database : Database :=
  {| atendimento := ∅; atendimento_id_seq := 1; statements := [] |}.

(** ORDER BY data DESC, id DESC *)
Definition order_by (r1 r2 : row) : Prop :=
  (data (cols r2) < data (cols r1)
   ∨ (data (cols r1) = data (cols r2) ∧ id r2 ≤ id r1))%Z.

#[global] Instance order_by_dec r1 r2 : Decision (order_by r1 r2).
Proof. unfold order_by. apply _. Defined.

Definition table_rows (t : gmap Z columns) : list row :=
  (λ kv, {| id := kv.1; cols := kv.2 |}) <$> map_to_list t.

(** [db] once it has received [text], its table as it was. *)
Definition received (text : sql) (db : Database) : Database :=
  {| atendimento := atendimento db;
     atendimento_id_seq := atendimento_id_seq db;
     statements := text :: statements db |}.

Section store.
Context `{!Postgres}.

(** A parameter bound to a TEXT column: null and undefined are NULL. *)
Definition text_param (v : value) : option jsstring :=
  match v with
  | VUndefined | VNull => None
  | VString s => Some s
  | _ => Some (driver_text v)
  end.

(** A parameter bound to the DATE column. *)
Definition date_param (v : value) : pg_error + option date :=
  match v with
  | VUndefined | VNull => inr None
  | _ => match date_in v with
         | Some d => inr (Some d)
         | None => inl (invalid_datetime_format v)
         end
  end.

(** The row a statement writes, with the NOT NULL and CHECK constraints
    of the schema. *)
Definition checked_columns
    (nome profissional : option jsstring) (data : option date)
    (tipo observacoes : option jsstring) : pg_error + columns :=
  match nome, profissional, data, tipo with
  | None, _, _, _ => inl (not_null_violation (js "nome"))
  | _, None, _, _ => inl (not_null_violation (js "profissional"))
  | _, _, None, _ => inl (not_null_violation (js "data"))
  | _, _, _, None => inl (not_null_violation (js "tipo"))
  | Some n, Some p, Some d, Some t =>
      if bool_decide (t ∈ [js "Psicológico"; js "Pedagógico"; js "Assistência Social"])
      then inr {| nome := n; profissional := p; data := d; tipo := t;
                  observacoes := observacoes |}
      else inl check_violation
  end.

Definition raise {A} (e : pg_error) (db : Database) : outcome A * Database :=
  (Throw (DatabaseError (pg_message e)), db).

Definition with_table (t : gmap Z columns) (db : Database) : Database :=
  {| atendimento := t; atendimento_id_seq := atendimento_id_seq db;
     statements := statements db |}.

(** Executing one statement.  A parameter the DATE column cannot read
    fails the statement before it runs; a constraint fails it while it
    runs, after the sequence has moved (a sequence is not rolled back). *)
Definition execute (text : sql) (db : Database) : outcome (list row) * Database :=
  match text with
  | SELECT_ordered =>
      (Return (merge_sort order_by (table_rows (atendimento db))), db)
  | SELECT_by_id i =>
      (Return (option_list ((λ c, {| id := i; cols := c |}) <$> atendimento db !! i)), db)
  | INSERT p1 p2 p3 p4 p5 =>
      match date_param p3 with
      | inl e => raise e db
      | inr d =>
          let i := atendimento_id_seq db in
          let db := {| atendimento := atendimento db;
                       atendimento_id_seq := (i + 1)%Z;
                       statements := statements db |} in
          match checked_columns (text_param p1) (text_param p2) d
                                (text_param p4) (text_param p5) with
          | inl e => raise e db
          | inr c =>
              match atendimento db !! i with
              | Some _ => raise (unique_violation i) db
              | None =>
                  (Return [ {| id := i; cols := c |} ],
                   with_table (<[i := c]> (atendimento db)) db)
              end
          end
      end
  | UPDATE p1 p2 p3 p4 p5 i =>
      match date_param p3 with
      | inl e => raise e db
      | inr d =>
          match atendimento db !! i with
          | None => (Return [], db)
          | Some _ =>
              match checked_columns (text_param p1) (text_param p2) d
                                    (text_param p4) (text_param p5) with
              | inl e => raise e db
              | inr c =>
                  (Return [ {| id := i; cols := c |} ],
                   with_table (<[i := c]> (atendimento db)) db)
              end
          end
      end
  | DELETE i =>
      match atendimento db !! i with
      | None => (Return [], db)
      | Some c =>
          (Return [ {| id := i; cols := c |} ],
           with_table (delete i (atendimento db)) db)
      end
  end.

(** [Database.query(text, params)]: take a client from the pool, run the
    statement, release the client, hand back the result or rethrow the
    error.  The pool always has a client to give: a lost connection is not
    part of this model. *)
Definition query (text : sql) (db : Database) : outcome (list row) * Database :=
  execute text (received text db).
End store.

End Pg.
Import Pg.

(** ** Asynchronous code over a store

    An [async] method run for one request: it threads the state of the
    store and either returns or throws ([await] is sequencing; a [catch]
    that logs and rethrows is the identity). *)

Definition M (S A : Type) : Type := S → outcome A * S.

Definition resolve {S A} (a : A) : M S A := λ s, (Return a, s).
Definition throw {S A} (e : exn) : M S A := λ s, (Throw e, s).

(** Synchronous code called from an [async] method. *)
Definition lift {S A} (o : outcome A) : M S A := λ s, (o, s).

(** [let* x := await e in k] *)
Definition bind_await {S A B} (m : M S A) (f : A → M S B) : M S B := λ s,
  match m s with
  | (Return a, s') => f a s'
  | (Throw e, s') => (Throw e, s')
  end.

Notation "'let*' x ':=' 'await' e 'in' k" := (bind_await e (λ x, k))
  (at level 10, x name, e at level 200, k at level 200, only parsing).

(** [let* x := call e in k]: a synchronous call inside an [async] method *)
Notation "'let*' x ':=' 'call' e 'in' k" := (bind_await (lift e) (λ x, k))
  (at level 10, x name, e at level 200, k at level 200, only parsing).

(** ** AtendimentoModel.js *)

Module AtendimentoModel.

Record validation : Type := { isValid : bool; errors : list jsstring }.

Definition tiposValidos : list jsstring :=
  [js "Psicológico"; js "Pedagógico"; js "Assistência Social"].

(** [tiposValidos.includes(tipo)]: SameValueZero against three strings. *)
Definition tiposValidos_includes (tipo : value) : bool :=
  match tipo with
  | VString s => bool_decide (s ∈ tiposValidos)
  | _ => false
  end.

(** [!v || v.trim().length === 0] *)
Definition falsy_or_blank (callee : string) (v : value) : outcome bool :=
  if negb (ToBoolean v) then pure true
  else let* s := call_trim callee v in pure (bool_decide (length s = 0%nat)).

Definition validateAtendimentoData (data : object) : outcome validation :=
  let nome := get data (js "nome") in
  let profissional := get data (js "profissional") in
  let dataAtendimento := get data (js "data") in
  let tipo := get data (js "tipo") in
  let errors : list jsstring := [] in
  let* c := falsy_or_blank "nome" nome in
  let errors := if c then errors ++ [js "Nome é obrigatório"] else errors in
  let* c := falsy_or_blank "profissional" profissional in
  let errors := if c then errors ++ [js "Profissional é obrigatório"] else errors in
  let errors :=
    if negb (ToBoolean dataAtendimento)
    then errors ++ [js "Data é obrigatória"] else errors in
  let errors :=
    if negb (ToBoolean tipo) || negb (tiposValidos_includes tipo)
    then errors ++ [js "Tipo deve ser: Psicológico, Pedagógico ou Assistência Social"]
    else errors in
  pure {| isValid := bool_decide (length errors = 0%nat); errors := errors |}.

(** [v ? v.trim() : ''] *)
Definition trim_or_empty (callee : string) (v : value) : outcome jsstring :=
  if ToBoolean v then call_trim callee v else pure [].

Definition sanitizeAtendimentoData (data : object) : outcome object :=
  let* nome := trim_or_empty "data.nome" (get data (js "nome")) in
  let* profissional := trim_or_empty "data.profissional" (get data (js "profissional")) in
  let* observacoes := trim_or_empty "data.observacoes" (get data (js "observacoes")) in
  pure [ (js "nome", VString nome);
         (js "profissional", VString profissional);
         (js "data", get data (js "data"));
         (js "tipo", get data (js "tipo"));
         (js "observacoes", VString observacoes) ].

(** [new Error(`Validation failed: ${validation.errors.join(', ')}`)] *)
Definition validation_failed (v : validation) : exn :=
  Error (js "Validation failed: " ++ join (js ", ") (errors v)).

Section methods.
Context `{!Postgres}.

Definition findAll : M Database (list row) :=
  let* rows := await query SELECT_ordered in
  resolve rows.

(** [result.rows[0] || null] *)
Definition findById (id : Z) : M Database (option row) :=
  let* rows := await query (SELECT_by_id id) in
  resolve (head rows).

(** [result.rows[0]], which is [undefined] ([None]) on an empty result *)
Definition create (atendimentoData : object) : M Database (option row) :=
  let* sanitizedData := call sanitizeAtendimentoData atendimentoData in
  let* validation := call validateAtendimentoData sanitizedData in
  if negb (isValid validation) then throw (validation_failed validation)
  else
    let* rows := await query (INSERT (get sanitizedData (js "nome"))
                                     (get sanitizedData (js "profissional"))
                                     (get sanitizedData (js "data"))
                                     (get sanitizedData (js "tipo"))
                                     (get sanitizedData (js "observacoes"))) in
    resolve (head rows).

Definition update (id : Z) (atendimentoData : object) : M Database (option row) :=
  let* sanitizedData := call sanitizeAtendimentoData atendimentoData in
  let* validation := call validateAtendimentoData sanitizedData in
  if negb (isValid validation) then throw (validation_failed validation)
  else
    let* rows := await query (UPDATE (get sanitizedData (js "nome"))
                                     (get sanitizedData (js "profissional"))
                                     (get sanitizedData (js "data"))
                                     (get sanitizedData (js "tipo"))
                                     (get sanitizedData (js "observacoes"))
                                     id) in
    resolve (head rows).

Definition delete (id : Z) : M Database (option row) :=
  let* rows := await query (DELETE id) in
  resolve (head rows).

End methods.
End AtendimentoModel.

(** The controller holds its model in a field, [this.atendimentoModel],
    and only calls its five methods. *)
Module Model.
Record ops (S : Type) : Type := {
  findAll : M S (list row);
  findById : Z → M S (option row);
  create : object → M S (option row);
  update : Z → object → M S (option row);
  delete : Z → M S (option row)
}.
Arguments findAll {S} _.
Arguments findById {S} _ _.
Arguments create {S} _ _.
Arguments update {S} _ _ _.
Arguments delete {S} _ _.
End Model.

(** [new AtendimentoModel()] *)
Definition atendimentoModel `{!Postgres} : Model.ops Database :=
  {| Model.findAll := AtendimentoModel.findAll;
     Model.findById := AtendimentoModel.findById;
     Model.create := AtendimentoModel.create;
     Model.update := AtendimentoModel.update;
     Model.delete := AtendimentoModel.delete |}.

(** ** AtendimentoController.js *)

Module AtendimentoController.

(** [parseInt(string)] with no radix: leading white space is skipped, then
    an optional sign, then [0x] or [0X] selects radix 16, and the longest
    run of digits is read; [None] is [NaN].  The result is the integer
    itself (its rounding to a double above 2^53 is left out). *)
Definition digit_value (radix : Z) (c : N) : option Z :=
  let v :=
    if (0x30 <=? c) && (c <=? 0x39) then (Z.of_N c - 0x30)%Z
    else if (0x61 <=? c) && (c <=? 0x7A) then (Z.of_N c - 0x61 + 10)%Z
    else if (0x41 <=? c) && (c <=? 0x5A) then (Z.of_N c - 0x41 + 10)%Z
    else 36%Z in
  if (v <? radix)%Z then Some v else None.

Fixpoint digits (radix : Z) (s : jsstring) (acc : option Z) : option Z :=
  match s with
  | [] => acc
  | c :: s' =>
      match digit_value radix c with
      | Some v => digits radix s' (Some (radix * default 0 acc + v)%Z)
      | None => acc
      end
  end.

Definition parseInt (string : jsstring) : option Z :=
  let s := trimStart string in
  let '(sign, s) :=
    match s with
    | 0x2D :: s' => ((-1)%Z, s')
    | 0x2B :: s' => (1%Z, s')
    | _ => (1%Z, s)
    end in
  let '(radix, s) :=
    match s with
    | 0x30 :: 0x78 :: s' | 0x30 :: 0x58 :: s' => (16%Z, s')
    | _ => (10%Z, s)
    end in
  (λ n, sign * n)%Z <$> digits radix s None.

(** A request as the handlers read it: [req.params.id], a string (absent
    on a route without [:id]), and [req.body], the object the body parser
    leaves. *)
Record request : Type := { params_id : option jsstring; body : object }.

(** [{...atendimento, data: <display string>}] *)
Record atendimento_json : Type := {
  id : Z;
  nome : jsstring;
  profissional : jsstring;
  data : jsstring;
  tipo : jsstring;
  observacoes : option jsstring
}.

#[warnings="-register-all"]
Inductive payload : Type :=
| null
| one (a : atendimento_json)
| many (l : list payload)
| only_id (id : Z).               (* [{ id: deletedAtendimento.id }] *)

(** The envelope [{success, data, message, errors, timestamp}]; [data] and
    [message] carry an underscore here, the plain names being those of the
    record's date and of an exception's text. *)
Record envelope : Type := {
  success : bool;
  data_ : payload;
  message_ : jsstring;
  errors : list jsstring;
  timestamp : jsstring
}.

(** [res.status(code).json(body)]; [res.json(body)] leaves the status 200. *)
Record response : Type := { status : Z; json : envelope }.

(** [Date.prototype.toLocaleDateString('pt-BR')] on the [Date] the driver
    builds from a DATE column. *)
Class Locale : Type := toLocaleDateString : Pg.date → jsstring.

Section handlers.
Context `{!Locale} {S : Type} (atendimentoModel : Model.ops S).
(** The reading of the clock, [new Date().toISOString()]. *)
Context (now : jsstring).

Definition formatResponse
    (success : bool) (data : payload) (message : jsstring) (errors : list jsstring)
    : envelope :=
  {| success := success; data_ := data; message_ := message; errors := errors;
     timestamp := now |}.

(** The driver hands a DATE column over as a [Date], or [null] ([None])
    for SQL NULL. *)
Definition formatDateForDisplay (dateString : option Pg.date) : jsstring :=
  match dateString with
  | None => []
  | Some date => toLocaleDateString date
  end.

Definition formatAtendimentoResponse (atendimento : option row) : payload :=
  match atendimento with
  | None => null
  | Some r =>
      one {| id := Pg.id r;
             nome := Pg.nome (cols r);
             profissional := Pg.profissional (cols r);
             data := formatDateForDisplay (Some (Pg.data (cols r)));
             tipo := Pg.tipo (cols r);
             observacoes := Pg.observacoes (cols r) |}
  end.

(** [!id || isNaN(parseInt(id))] decides between [None] and the parsed id. *)
Definition id_param (req : request) : option Z :=
  match params_id req with
  | None => None
  | Some id => if bool_decide (id = []) then None else parseInt id
  end.

Definition invalid_id : response :=
  {| status := 400;
     json := formatResponse false null (js "Invalid ID parameter")
                            [js "ID must be a valid number"] |}.

Definition not_found : response :=
  {| status := 404;
     json := formatResponse false null (js "Atendimento not found") [] |}.

Definition getAllAtendimentos (req : request) (s : S) : response * S :=
  match Model.findAll atendimentoModel s with
  | (Return atendimentos, s') =>
      ({| status := 200;
          json := formatResponse true
                    (many ((λ a, formatAtendimentoResponse (Some a)) <$> atendimentos))
                    (js "Atendimentos retrieved successfully") [] |}, s')
  | (Throw error, s') =>
      ({| status := 500;
          json := formatResponse false null (js "Error retrieving atendimentos")
                                 [message error] |}, s')
  end.

Definition getAtendimentoById (req : request) (s : S) : response * S :=
  match id_param req with
  | None => (invalid_id, s)
  | Some id =>
      match Model.findById atendimentoModel id s with
      | (Return None, s') => (not_found, s')
      | (Return (Some atendimento), s') =>
          ({| status := 200;
              json := formatResponse true
                        (formatAtendimentoResponse (Some atendimento))
                        (js "Atendimento retrieved successfully") [] |}, s')
      | (Throw error, s') =>
          ({| status := 500;
              json := formatResponse false null (js "Error retrieving atendimento")
                                     [message error] |}, s')
      end
  end.

Definition createAtendimento (req : request) (s : S) : response * S :=
  match Model.create atendimentoModel (body req) s with
  | (Return newAtendimento, s') =>
      ({| status := 201;
          json := formatResponse true (formatAtendimentoResponse newAtendimento)
                                 (js "Atendimento created successfully") [] |}, s')
  | (Throw error, s') =>
      if includes (message error) (js "Validation failed")
      then ({| status := 400;
               json := formatResponse false null (js "Validation error")
                                      [message error] |}, s')
      else ({| status := 500;
               json := formatResponse false null (js "Error creating atendimento")
                                      [message error] |}, s')
  end.

Definition updateAtendimento (req : request) (s : S) : response * S :=
  match id_param req with
  | None => (invalid_id, s)
  | Some id =>
      match Model.update atendimentoModel id (body req) s with
      | (Return None, s') => (not_found, s')
      | (Return (Some updatedAtendimento), s') =>
          ({| status := 200;
              json := formatResponse true
                        (formatAtendimentoResponse (Some updatedAtendimento))
                        (js "Atendimento updated successfully") [] |}, s')
      | (Throw error, s') =>
          if includes (message error) (js "Validation failed")
          then ({| status := 400;
                   json := formatResponse false null (js "Validation error")
                                          [message error] |}, s')
          else ({| status := 500;
                   json := formatResponse false null (js "Error updating atendimento")
                                          [message error] |}, s')
      end
  end.

Definition deleteAtendimento (req : request) (s : S) : response * S :=
  match id_param req with
  | None => (invalid_id, s)
  | Some id =>
      match Model.delete atendimentoModel id s with
      | (Return None, s') => (not_found, s')
      | (Return (Some deletedAtendimento), s') =>
          ({| status := 200;
              json := formatResponse true (only_id (Pg.id deletedAtendimento))
                                     (js "Atendimento deleted successfully") [] |}, s')
      | (Throw error, s') =>
          ({| status := 500;
              json := formatResponse false null (js "Error deleting atendimento")
                                     [message error] |}, s')
      end
  end.

End handlers.
End AtendimentoController.

(** ** The rules of the data model

    The four rules [validate] reports on, in the order it checks them.  A
    field is missing when it is absent, [null], or otherwise falsy (the
    empty string, [false], zero). *)

Inductive rule : Type :=
| nome_required
| profissional_required
| data_required
| tipo_allowed.

Definition rules : list rule :=
  [nome_required; profissional_required; data_required; tipo_allowed].

Definition missing (v : value) : bool := negb (ToBoolean v).

Definition blank_after_trim (v : value) : bool :=
  match v with
  | VString s => bool_decide (trim s = [])
  | _ => false
  end.

Definition outside_allowed_tipos (v : value) : bool :=
  match v with
  | VString s =>
      negb (bool_decide (s = js "Psicológico" ∨ s = js "Pedagógico"
                         ∨ s = js "Assistência Social"))
  | _ => true
  end.

Definition violated (data : object) (r : rule) : bool :=
  match r with
  | nome_required =>
      missing (get data (js "nome")) || blank_after_trim (get data (js "nome"))
  | profissional_required =>
      missing (get data (js "profissional"))
      || blank_after_trim (get data (js "profissional"))
  | data_required => missing (get data (js "data"))
  | tipo_allowed =>
      missing (get data (js "tipo")) || outside_allowed_tipos (get data (js "tipo"))
  end.

Definition rule_message (r : rule) : jsstring :=
  match r with
  | nome_required => js "Nome é obrigatório"
  | profissional_required => js "Profissional é obrigatório"
  | data_required => js "Data é obrigatória"
  | tipo_allowed => js "Tipo deve ser: Psicológico, Pedagógico ou Assistência Social"
  end.

(** A field on which [.trim()] is safe: falsy, so never trimmed, or a
    string. *)
Definition text_or_falsy (v : value) : bool :=
  match v with
  | VString _ => true
  | _ => negb (ToBoolean v)
  end.

(** What [sanitize] makes of a text field. *)
Definition trimmed (v : value) : jsstring :=
  match v with
  | VString s => trim s
  | _ => []
  end.


(** The sequence is ahead of every id in the table: what holds of the
    empty database and of every state the statements lead to. *)
Definition sequence_ahead (db : Database) : Prop :=
  ∀ i, is_Some (atendimento db !! i) → (i < atendimento_id_seq db)%Z.

(** ** A concrete store and locale

    One instance of what the theorems quantify over, to run the program
    on: a server that reads ISO 8601 calendar dates ([YYYY-MM-DD]) and
    nothing else, and a locale that prints [DD/MM/YYYY]. *)

Module Fixture.

Definition digit (c : N) : option Z :=
  if (0x30 <=? c) && (c <=? 0x39) then Some (Z.of_N c - 0x30)%Z else None.

Definition number (ds : list N) : option Z :=
  foldl (λ acc c, match acc, digit c with
                  | Some n, Some d => Some (10 * n + d)%Z
                  | _, _ => None
                  end) (Some 0%Z) ds.

Definition leap (y : Z) : bool :=
  ((y mod 4 =? 0) && negb (y mod 100 =? 0) || (y mod 400 =? 0))%Z.

Definition days_in_month (y m : Z) : Z :=
  (if m =? 2 then (if leap y then 29 else 28)
   else if (m =? 4) || (m =? 6) || (m =? 9) || (m =? 11) then 30 else 31)%Z.

(** Days since 1970-01-01 in the proleptic Gregorian calendar. *)
Definition days_from_civil (y m d : Z) : Z :=
  (let y := if m <=? 2 then y - 1 else y in
   let era := y / 400 in
   let yoe := y - era * 400 in
   let doy := (153 * (if 2 <? m then m - 3 else m + 9) + 2) / 5 + d - 1 in
   let doe := yoe * 365 + yoe / 4 - yoe / 100 + doy in
   era * 146097 + doe - 719468)%Z.

Definition civil_from_days (z : Z) : Z * Z * Z :=
  (let z := z + 719468 in
   let era := z / 146097 in
   let doe := z - era * 146097 in
   let yoe := (doe - doe / 1460 + doe / 36524 - doe / 146096) / 365 in
   let doy := doe - (365 * yoe + yoe / 4 - yoe / 100) in
   let mp := (5 * doy + 2) / 153 in
   let d := doy - (153 * mp + 2) / 5 + 1 in
   let m := if mp <? 10 then mp + 3 else mp - 9 in
   let y := yoe + era * 400 in
   (if m <=? 2 then y + 1 else y, m, d))%Z.

Definition iso_date (s : jsstring) : option Pg.date :=
  match s with
  | [y1; y2; y3; y4; 0x2D; m1; m2; 0x2D; d1; d2] =>
      match number [y1; y2; y3; y4], number [m1; m2], number [d1; d2] with
      | Some y, Some m, Some d =>
          if ((1 <=? m) && (m <=? 12) && (1 <=? d) && (d <=? days_in_month y m))%Z
          then Some (days_from_civil y m d) else None
      | _, _, _ => None
      end
  | _ => None
  end.

Definition decimal (width : nat) (n : Z) : jsstring :=
  reverse ((λ i, (0x30 + Z.to_N ((n / 10 ^ Z.of_nat i) mod 10))%N) <$> seq 0 width).

Definition postgres : Postgres := {|
  date_in v := match v with VString s => iso_date s | _ => None end;
  driver_text v := match v with
                   | VBoolean true => js "true"
                   | VBoolean false => js "false"
                   | _ => js "{}"
                   end;
  pg_message e :=
    match e with
    | invalid_datetime_format _ => js "invalid input syntax for type date"
    | not_null_violation c =>
        js "null value in column " ++ c ++ js " violates not-null constraint"
    | check_violation => js "new row violates check constraint atendimento_tipo_check"
    | unique_violation _ =>
        js "duplicate key value violates unique constraint atendimento_pkey"
    end
|}.

Definition locale : AtendimentoController.Locale := λ d,
  let '(y, m, d) := civil_from_days d in
  decimal 2 d ++ js "/" ++ decimal 2 m ++ js "/" ++ decimal 4 y.

Definition now : jsstring := js "2024-07-01T12:00:00.000Z".

Definition visit (nome data : string) : object :=
  [ (js "nome", VString (js nome));
    (js "profissional", VString (js "Dr. X"));
    (js "data", VString (js data));
    (js "tipo", VString (js "Psicológico")) ].

Definition ana : object := visit "  Ana " "2024-03-01".

(** A blank name, no date, a type outside the set. *)
Definition incomplete : object :=
  [ (js "nome", VString (js "   "));
    (js "profissional", VString (js "Dr. X"));
    (js "tipo", VString (js "Outro")) ].


Definition stored (id : Z) (nome : string) (day : Pg.date) : row :=
  {| id := id;
     cols := {| nome := js nome; profissional := js "Dr. X"; data := day;
                tipo := js "Psicológico"; observacoes := Some [] |} |}.

(** A request on [/atendimento/:id], and one on [/atendimento]. *)
Definition on_id (id : string) (body : object) : AtendimentoController.request :=
  {| AtendimentoController.params_id := Some (js id);
     AtendimentoController.body := body |}.

Definition no_id (body : object) : AtendimentoController.request :=
  {| AtendimentoController.params_id := None;
     AtendimentoController.body := body |}.

End Fixture.

(** ** atendimentoRoutes.js

    The router below its mount point ([/atendimento] and [/atendimentos]
    carry the same router).  A request is its method, its path split at
    [/] (so [[]] is the route ['/'] and [[id]] the route ['/:id'], with
    [req.params.id] the decoded segment) and its parsed body; [clock] is
    the reading of the clock when the answer is built.  Only the four
    methods the routes are registered for are considered. *)

Module AtendimentoRoutes.

Inductive method : Type := GET | POST | PUT | DELETE.

Record incoming : Type := {
  verb : method;
  path : list jsstring;
  body : object;
  clock : jsstring
}.

Section router.
Context `{!AtendimentoController.Locale} {S : Type} (atendimentoModel : Model.ops S).

(** [asyncHandler(fn)]: the handlers catch what the model throws, so the
    promise of [fn] always resolves and [next] is never called. *)
Definition asyncHandler
    (fn : AtendimentoController.request → S → AtendimentoController.response * S)
    : AtendimentoController.request → S → AtendimentoController.response * S := fn.

(** [initializeRoutes]: the handler of the first route that matches, if
    any. *)
Definition route (r : incoming)
    : option (S → AtendimentoController.response * S) :=
  let req (id : option jsstring) :=
    {| AtendimentoController.params_id := id;
       AtendimentoController.body := body r |} in
  match verb r, path r with
  | GET, [] =>
      Some (asyncHandler
              (AtendimentoController.getAllAtendimentos atendimentoModel (clock r))
              (req None))
  | GET, [id] =>
      Some (asyncHandler
              (AtendimentoController.getAtendimentoById atendimentoModel (clock r))
              (req (Some id)))
  | POST, [] =>
      Some (asyncHandler
              (AtendimentoController.createAtendimento atendimentoModel (clock r))
              (req None))
  | PUT, [id] =>
      Some (asyncHandler
              (AtendimentoController.updateAtendimento atendimentoModel (clock r))
              (req (Some id)))
  | DELETE, [id] =>
      Some (asyncHandler
              (AtendimentoController.deleteAtendimento atendimentoModel (clock r))
              (req (Some id)))
  | _, _ => None
  end.

(** One request: the answer of the route, or none when the router passes
    the request on; the state behind the model afterwards. *)
Definition serve (r : incoming) (s : S)
    : option AtendimentoController.response * S :=
  match route r with
  | Some handler => let '(res, s') := handler s in (Some res, s')
  | None => (None, s)
  end.

(** Requests served one after the other. *)
Definition run (rs : list incoming) (s : S) : S :=
  foldl (λ s r, (serve r s).2) s rs.

End router.
End AtendimentoRoutes.

(** ** The browser client: the pure functions of [utils]

    A form's entries are text fields, so a [FormData] is a list of names
    and strings; [get] gives the first value under a name, or null. *)

Module App.

Definition FormData : Type := list (jsstring * jsstring).

Fixpoint FormData_get (formData : FormData) (name : jsstring) : option jsstring :=
  match formData with
  | [] => None
  | (n, v) :: rest => if decide (name = n) then Some v else FormData_get rest name
  end.

(** [x || ''] on a string or undefined *)
Definition or_empty (x : option jsstring) : jsstring :=
  match x with
  | Some (c :: s) => c :: s
  | _ => []
  end.

Definition sanitizeFormData (formData : FormData) : object :=
  [ (js "nome", VString (or_empty (trim <$> FormData_get formData (js "nome"))));
    (js "profissional",
     VString (or_empty (trim <$> FormData_get formData (js "profissional"))));
    (js "data", VString (or_empty (FormData_get formData (js "data"))));
    (js "tipo", VString (or_empty (FormData_get formData (js "tipo"))));
    (js "observacoes",
     VString (or_empty (trim <$> FormData_get formData (js "observacoes")))) ].

Definition validateFormData (data : object) : outcome AtendimentoModel.validation :=
  let errors : list jsstring := [] in
  let* c := AtendimentoModel.falsy_or_blank "data.nome" (get data (js "nome")) in
  let errors := if c then errors ++ [js "Nome é obrigatório"] else errors in
  let* c := AtendimentoModel.falsy_or_blank "data.profissional"
              (get data (js "profissional")) in
  let errors := if c then errors ++ [js "Profissional é obrigatório"] else errors in
  let errors :=
    if negb (ToBoolean (get data (js "data")))
    then errors ++ [js "Data é obrigatória"] else errors in
  let errors :=
    if negb (ToBoolean (get data (js "tipo")))
    then errors ++ [js "Tipo de atendimento é obrigatório"] else errors in
  pure {| AtendimentoModel.isValid := bool_decide (length errors = 0%nat);
          AtendimentoModel.errors := errors |}.



End App.

(** ** What the table holds

    A row as [create] and [update] write it: nome and profissional trimmed
    and not empty, tipo one of the three, observacoes a trimmed string. *)
Definition sanitized_row (c : columns) : Prop :=
  trim (nome c) = nome c ∧ nome c ≠ []
  ∧ trim (profissional c) = profissional c ∧ profissional c ≠ []
  ∧ tipo c ∈ AtendimentoModel.tiposValidos
  ∧ ∃ o, observacoes c = Some o ∧ trim o = o.

Definition consistent (db : Database) : Prop :=
  sequence_ahead db
  ∧ ∀ i c, atendimento db !! i = Some c → sanitized_row c.

(** The statements [create] and [update] send for a sanitized object, and
    the columns they write for a body whose date the store reads as [d]. *)
Definition insert_of (sanitizedData : object) : sql :=
  INSERT (get sanitizedData (js "nome")) (get sanitizedData (js "profissional"))
         (get sanitizedData (js "data")) (get sanitizedData (js "tipo"))
         (get sanitizedData (js "observacoes")).

Definition update_of (sanitizedData : object) (id : Z) : sql :=
  UPDATE (get sanitizedData (js "nome")) (get sanitizedData (js "profissional"))
         (get sanitizedData (js "data")) (get sanitizedData (js "tipo"))
         (get sanitizedData (js "observacoes")) id.

Definition written (atendimentoData : object) (d : Pg.date) : columns :=
  {| nome := trimmed (get atendimentoData (js "nome"));
     profissional := trimmed (get atendimentoData (js "profissional"));
     data := d;
     tipo := match get atendimentoData (js "tipo") with VString t => t | _ => [] end;
     observacoes := Some (trimmed (get atendimentoData (js "observacoes"))) |}.

(** A body that [create] and [update] let through to the store. *)
Definition accepted (atendimentoData : object) : Prop :=
  ∃ s v, AtendimentoModel.sanitizeAtendimentoData atendimentoData = Return s
         ∧ AtendimentoModel.validateAtendimentoData s = Return v
         ∧ AtendimentoModel.isValid v = true.

(** Some samples to run the router and the client on. *)
Module Sample.

Definition form : App.FormData :=
  [ (js "nome", js "  Ana ");
    (js "profissional", js "Dr. X");
    (js "data", js "2024-03-01");
    (js "tipo", js "Psicológico");
    (js "observacoes", js "") ].

Definition request (verb : AtendimentoRoutes.method) (path : list string)
    (body : object) : AtendimentoRoutes.incoming :=
  {| AtendimentoRoutes.verb := verb;
     AtendimentoRoutes.path := js <$> path;
     AtendimentoRoutes.body := body;
     AtendimentoRoutes.clock := Fixture.now |}.

End Sample.

(** One step of the store: it stays consistent and its sequence never
    moves back. *)
Definition sound_step (db db' : Database) : Prop :=
  (consistent db → consistent db')
  ∧ (atendimento_id_seq db ≤ atendimento_id_seq db')%Z.

(** * Properties *)

Local Close Scope N_scope.

(** ** Strings *)

Lemma trimStart_length (s : jsstring) : length (trimStart s) ≤ length s.
Proof.
  induction s as [|c s IH]; simpl; [lia|].
  destruct (isWhiteSpace c); simpl; lia.
Qed.

Lemma trimStart_fixed_cons (c : N) (s : jsstring) :
  trimStart (c :: s) = c :: s → isWhiteSpace c = false.
Proof.
  simpl. destruct (isWhiteSpace c); [|done].
  intros E. pose proof (trimStart_length s) as L.
  rewrite E in L. simpl in L. lia.
Qed.

Lemma trimStart_idem (s : jsstring) : trimStart (trimStart s) = trimStart s.
Proof.
  induction s as [|c s IH]; [done|].
  simpl. destruct (isWhiteSpace c) eqn:E; [done|].
  simpl. by rewrite E.
Qed.

Lemma trimStart_suffix (s : jsstring) : ∃ k, s = k ++ trimStart s.
Proof.
  induction s as [|c s [k IH]]; [by exists []|].
  simpl. destruct (isWhiteSpace c).
  - exists (c :: k). simpl. by f_equal.
  - by exists [].
Qed.

Lemma trimEnd_prefix (s : jsstring) : ∃ k, s = trimEnd s ++ k.
Proof.
  destruct (trimStart_suffix (reverse s)) as [k E].
  exists (reverse k). unfold trimEnd.
  rewrite <- reverse_app, <- E. by rewrite reverse_involutive.
Qed.

Lemma trimEnd_idem (s : jsstring) : trimEnd (trimEnd s) = trimEnd s.
Proof.
  unfold trimEnd. by rewrite reverse_involutive, trimStart_idem.
Qed.

Lemma trimStart_trimEnd (s : jsstring) :
  trimStart s = s → trimStart (trimEnd s) = trimEnd s.
Proof.
  intros Fix. destruct (trimEnd_prefix s) as [k E].
  destruct (trimEnd s) as [|c t] eqn:T; [done|].
  rewrite E in Fix. apply trimStart_fixed_cons in Fix.
  simpl. by rewrite Fix.
Qed.

Lemma trim_idem (s : jsstring) : trim (trim s) = trim s.
Proof.
  unfold trim.
  rewrite (trimStart_trimEnd (trimStart s)) by apply trimStart_idem.
  apply trimEnd_idem.
Qed.

Lemma trim_empty : trim [] = [].
Proof. reflexivity. Qed.

(** ** Validation and sanitization *)

Lemma falsy_or_blank_text (callee : string) (v : value) :
  text_or_falsy v = true →
  AtendimentoModel.falsy_or_blank callee v
  = Return (missing v || blank_after_trim v).
Proof.
  unfold AtendimentoModel.falsy_or_blank, missing.
  destruct v as [| |b|x|s| |]; simpl; try done.
  - by destruct b.
  - by destruct x.
  - intros _. case_bool_decide as E; [by subst|].
    cbn. f_equal. apply bool_decide_ext, length_zero_iff_nil.
Qed.

Lemma falsy_or_blank_throws (callee : string) (v : value) :
  text_or_falsy v = false →
  AtendimentoModel.falsy_or_blank callee v
  = Throw (TypeError (js callee ++ js ".trim is not a function")).
Proof.
  unfold AtendimentoModel.falsy_or_blank.
  destruct v as [| |b|x|s| |]; simpl; try done.
  - by destruct b.
  - by destruct x.
Qed.

Lemma trim_or_empty_text (callee : string) (v : value) :
  text_or_falsy v = true →
  AtendimentoModel.trim_or_empty callee v
  = Return (trimmed v).
Proof.
  unfold AtendimentoModel.trim_or_empty.
  destruct v as [| |b|x|s| |]; simpl; try done.
  - by destruct b.
  - by destruct x.
  - intros _. by destruct s.
Qed.

Lemma trim_or_empty_throws (callee : string) (v : value) :
  text_or_falsy v = false →
  AtendimentoModel.trim_or_empty callee v
  = Throw (TypeError (js callee ++ js ".trim is not a function")).
Proof.
  unfold AtendimentoModel.trim_or_empty.
  destruct v as [| |b|x|s| |]; simpl; try done.
  - by destruct b.
  - by destruct x.
Qed.

Lemma tiposValidos_includes_allowed (v : value) :
  AtendimentoModel.tiposValidos_includes v = negb (outside_allowed_tipos v).
Proof.
  destruct v as [| | | |s| |]; simpl; try done.
  rewrite negb_involutive. apply bool_decide_ext.
  unfold AtendimentoModel.tiposValidos.
  rewrite !elem_of_cons, elem_of_nil. tauto.
Qed.

Lemma allowed_tipo_not_missing (v : value) :
  outside_allowed_tipos v = false → missing v = false.
Proof.
  destruct v as [| | | |s| |]; simpl; try done.
  intros H. apply negb_false_iff, bool_decide_eq_true in H.
  unfold missing. simpl. by destruct H as [->|[->| ->]].
Qed.

Lemma rule_message_inj : Inj (=) (=) rule_message.
Proof. intros [] []; by vm_compute. Qed.

(** Reading a field of an object literal with the five keys of a record. *)
Section object_literal.
Context (n p d t o : value).
Let literal : object :=
  [ (js "nome", n); (js "profissional", p); (js "data", d); (js "tipo", t);
    (js "observacoes", o) ].

Lemma get_nome : get literal (js "nome") = n.
Proof. reflexivity. Qed.
Lemma get_profissional : get literal (js "profissional") = p.
Proof. reflexivity. Qed.
Lemma get_data : get literal (js "data") = d.
Proof. reflexivity. Qed.
Lemma get_tipo : get literal (js "tipo") = t.
Proof. reflexivity. Qed.
Lemma get_observacoes : get literal (js "observacoes") = o.
Proof. reflexivity. Qed.
End object_literal.

Create Rewrite HintDb record_fields.
#[global] Hint Rewrite get_nome get_profissional get_data get_tipo get_observacoes
  : record_fields.

Lemma sanitize_text (data : object) :
  text_or_falsy (get data (js "nome")) = true →
  text_or_falsy (get data (js "profissional")) = true →
  text_or_falsy (get data (js "observacoes")) = true →
  AtendimentoModel.sanitizeAtendimentoData data
  = Return [ (js "nome", VString (trimmed (get data (js "nome"))));
             (js "profissional", VString (trimmed (get data (js "profissional"))));
             (js "data", get data (js "data"));
             (js "tipo", get data (js "tipo"));
             (js "observacoes", VString (trimmed (get data (js "observacoes")))) ].
Proof.
  intros Hn Hp Ho. unfold AtendimentoModel.sanitizeAtendimentoData.
  by rewrite !trim_or_empty_text.
Qed.

Lemma sanitize_throws (data : object) :
  text_or_falsy (get data (js "nome")) = false
  ∨ text_or_falsy (get data (js "profissional")) = false
  ∨ text_or_falsy (get data (js "observacoes")) = false →
  ∃ m, AtendimentoModel.sanitizeAtendimentoData data = Throw (TypeError m).
Proof.
  unfold AtendimentoModel.sanitizeAtendimentoData.
  destruct (text_or_falsy (get data (js "nome"))) eqn:Hn;
    [rewrite (trim_or_empty_text _ _ Hn)|rewrite (trim_or_empty_throws _ _ Hn); by eexists].
  destruct (text_or_falsy (get data (js "profissional"))) eqn:Hp;
    [rewrite (trim_or_empty_text _ _ Hp)|rewrite (trim_or_empty_throws _ _ Hp); by eexists].
  destruct (text_or_falsy (get data (js "observacoes"))) eqn:Ho;
    [|rewrite (trim_or_empty_throws _ _ Ho); by eexists].
  intros [?|[?|?]]; done.
Qed.

(** The fields of a sanitized object. *)
Lemma sanitized_fields (data sanitized : object) :
  AtendimentoModel.sanitizeAtendimentoData data = Return sanitized →
  sanitized
  = [ (js "nome", VString (trimmed (get data (js "nome"))));
      (js "profissional", VString (trimmed (get data (js "profissional"))));
      (js "data", get data (js "data"));
      (js "tipo", get data (js "tipo"));
      (js "observacoes", VString (trimmed (get data (js "observacoes")))) ].
Proof.
  intros E.
  destruct (text_or_falsy (get data (js "nome"))) eqn:Hn;
    [|destruct (sanitize_throws data) as [m Hm]; [by left|congruence]].
  destruct (text_or_falsy (get data (js "profissional"))) eqn:Hp;
    [|destruct (sanitize_throws data) as [m Hm]; [by right; left|congruence]].
  destruct (text_or_falsy (get data (js "observacoes"))) eqn:Ho;
    [|destruct (sanitize_throws data) as [m Hm]; [by right; right|congruence]].
  rewrite sanitize_text in E by done. congruence.
Qed.

Lemma trimmed_trimmed (v : value) : trimmed (VString (trimmed v)) = trimmed v.
Proof. destruct v; simpl; try done. apply trim_idem. Qed.

Lemma validate_text (data : object) :
  text_or_falsy (get data (js "nome")) = true →
  text_or_falsy (get data (js "profissional")) = true →
  AtendimentoModel.validateAtendimentoData data
  = Return {| AtendimentoModel.isValid :=
                forallb (λ r, negb (violated data r)) rules;
              AtendimentoModel.errors :=
                rule_message <$> filter (λ r, violated data r = true) rules |}.
Proof.
  intros Hn Hp. unfold AtendimentoModel.validateAtendimentoData.
  rewrite !falsy_or_blank_text by done. simpl.
  rewrite tiposValidos_includes_allowed, negb_involutive.
  unfold rules. rewrite !filter_cons, filter_nil. simpl. fold (missing (get data (js "data"))).
  fold (missing (get data (js "tipo"))).
  destruct (missing (get data (js "nome")) || blank_after_trim (get data (js "nome")));
  destruct (missing (get data (js "profissional"))
            || blank_after_trim (get data (js "profissional")));
  destruct (missing (get data (js "data")));
  destruct (missing (get data (js "tipo")) || outside_allowed_tipos (get data (js "tipo"))).
  all: by vm_compute.
Qed.

Lemma validate_throws (data : object) :
  text_or_falsy (get data (js "nome")) = false
  ∨ text_or_falsy (get data (js "profissional")) = false →
  ∃ m, AtendimentoModel.validateAtendimentoData data = Throw (TypeError m).
Proof.
  unfold AtendimentoModel.validateAtendimentoData.
  destruct (text_or_falsy (get data (js "nome"))) eqn:Hn.
  - intros [?|Hp]; [done|].
    rewrite (falsy_or_blank_text _ _ Hn), (falsy_or_blank_throws _ _ Hp).
    by eexists.
  - intros _. rewrite (falsy_or_blank_throws _ _ Hn). by eexists.
Qed.

(** C1 (amended).  On every input object whose [nome] and [profissional]
    are each a string or falsy, [validateAtendimentoData] returns, and its
    [errors] list holds exactly one message per violated rule (in the order
    nome, profissional, data, tipo) and nothing else: a violated rule gives
    [isValid = false]; an input that satisfies all four rules gives
    [isValid = true] and an empty list. *)
Theorem validate_one_message_per_violated_rule (data : object) :
  text_or_falsy (get data (js "nome")) = true →
  text_or_falsy (get data (js "profissional")) = true →
  ∃ v, AtendimentoModel.validateAtendimentoData data = Return v
    ∧ AtendimentoModel.errors v
      = rule_message <$> filter (λ r, violated data r = true) rules
    ∧ (∀ r, length (filter (λ m, m = rule_message r) (AtendimentoModel.errors v))
            = if violated data r then 1 else 0)
    ∧ (∀ r, violated data r = true → AtendimentoModel.isValid v = false)
    ∧ ((∀ r, violated data r = false) →
       AtendimentoModel.isValid v = true ∧ AtendimentoModel.errors v = []).
Proof.
  intros Hn Hp. eexists. split; [by apply validate_text|].
  cbn [AtendimentoModel.errors AtendimentoModel.isValid].
  unfold rules. rewrite !filter_cons, filter_nil. cbn [forallb].
  destruct (violated data nome_required) eqn:E1;
    destruct (violated data profissional_required) eqn:E2;
    destruct (violated data data_required) eqn:E3;
    destruct (violated data tipo_allowed) eqn:E4.
  all: split; [reflexivity|].
  all: split; [intros []; rewrite ?E1, ?E2, ?E3, ?E4; by vm_compute|].
  all: split; [intros [] ?; simpl; congruence || reflexivity|].
  all: intros A; try (by vm_compute).
  all: first [ specialize (A nome_required); congruence
             | specialize (A profissional_required); congruence
             | specialize (A data_required); congruence
             | specialize (A tipo_allowed); congruence ].
Qed.

(** The amended C1 at a body with a blank name, no date and an unknown
    type: three messages. *)
Lemma validate_one_message_per_violated_rule_witness :
  text_or_falsy (get Fixture.incomplete (js "nome")) = true
  ∧ text_or_falsy (get Fixture.incomplete (js "profissional")) = true
  ∧ ∃ v, AtendimentoModel.validateAtendimentoData Fixture.incomplete = Return v
    ∧ AtendimentoModel.errors v
      = rule_message <$> filter (λ r, violated Fixture.incomplete r = true) rules
    ∧ (∀ r, length (filter (λ m, m = rule_message r) (AtendimentoModel.errors v))
            = if violated Fixture.incomplete r then 1 else 0)
    ∧ (∀ r, violated Fixture.incomplete r = true → AtendimentoModel.isValid v = false)
    ∧ ((∀ r, violated Fixture.incomplete r = false) →
       AtendimentoModel.isValid v = true ∧ AtendimentoModel.errors v = []).
Proof.
  split; [reflexivity|]. split; [reflexivity|].
  apply (validate_one_message_per_violated_rule Fixture.incomplete); reflexivity.
Defined.

Example validate_incomplete :
  AtendimentoModel.validateAtendimentoData Fixture.incomplete
  = Return {| AtendimentoModel.isValid := false;
              AtendimentoModel.errors :=
                [ js "Nome é obrigatório"; js "Data é obrigatória";
                  js "Tipo deve ser: Psicológico, Pedagógico ou Assistência Social" ] |}.
Proof. by vm_compute. Qed.

(** C1 as stated fails on an input whose [nome] is an array: profissional,
    data and tipo are missing, yet no result with [isValid = false] comes
    back, the call throws. *)
Lemma validate_throws_on_array_nome :
  AtendimentoModel.validateAtendimentoData [ (js "nome", VArray [VString (js "Ana")]) ]
  = Throw (TypeError (js "nome.trim is not a function")).
Proof. by vm_compute. Qed.

(** C5 (amended).  [validateAtendimentoData] returns exactly on the objects
    whose [nome] and [profissional] are each a string or falsy, and
    [sanitizeAtendimentoData] exactly on those whose [nome], [profissional]
    and [observacoes] are; on any other object the call throws a
    TypeError. *)
Theorem validate_sanitize_return_on_text (data : object) :
  ((∃ v, AtendimentoModel.validateAtendimentoData data = Return v)
   ↔ text_or_falsy (get data (js "nome")) = true
     ∧ text_or_falsy (get data (js "profissional")) = true)
  ∧ ((∃ y, AtendimentoModel.sanitizeAtendimentoData data = Return y)
     ↔ text_or_falsy (get data (js "nome")) = true
       ∧ text_or_falsy (get data (js "profissional")) = true
       ∧ text_or_falsy (get data (js "observacoes")) = true)
  ∧ (∀ e, AtendimentoModel.validateAtendimentoData data = Throw e
          ∨ AtendimentoModel.sanitizeAtendimentoData data = Throw e →
          ∃ m, e = TypeError m).
Proof.
  destruct (text_or_falsy (get data (js "nome"))) eqn:Hn;
    destruct (text_or_falsy (get data (js "profissional"))) eqn:Hp;
    destruct (text_or_falsy (get data (js "observacoes"))) eqn:Ho.
  all: try (destruct (validate_throws data) as [mv Hv]; [rewrite Hn, Hp; by auto|]).
  all: try (destruct (sanitize_throws data) as [ms Hs]; [rewrite Hn, Hp, Ho; by auto|]).
  all: try (pose proof (validate_text data Hn Hp) as Hv).
  all: try (pose proof (sanitize_text data Hn Hp Ho) as Hs).
  all: rewrite Hv, Hs.
  all: repeat split; try done; try (by eexists);
    try (by intros [? ?]); try (by intros (? & ? & ?)).
  all: try (intros e [E|E]; inversion E; by eexists).
  all: match goal with H : ∃ _, Throw _ = Return _ |- _ => by destruct H end.
Qed.

(** C5 as stated fails on the body [{"nome": true}]: both functions
    throw. *)
Lemma sanitize_validate_throw_on_boolean_nome :
  AtendimentoModel.sanitizeAtendimentoData [ (js "nome", VBoolean true) ]
  = Throw (TypeError (js "data.nome.trim is not a function"))
  ∧ AtendimentoModel.validateAtendimentoData [ (js "nome", VBoolean true) ]
    = Throw (TypeError (js "nome.trim is not a function")).
Proof. split; by vm_compute. Qed.


(** ** The model over the store *)

Section model_properties.
Context `{!Postgres}.

Lemma create_unfold (atendimentoData : object) (db : Database) :
  AtendimentoModel.create atendimentoData db
  = match AtendimentoModel.sanitizeAtendimentoData atendimentoData with
    | Throw e => (Throw e, db)
    | Return s =>
        match AtendimentoModel.validateAtendimentoData s with
        | Throw e => (Throw e, db)
        | Return v =>
            if AtendimentoModel.isValid v
            then match query (INSERT (get s (js "nome")) (get s (js "profissional"))
                                     (get s (js "data")) (get s (js "tipo"))
                                     (get s (js "observacoes"))) db with
                 | (Return rows, db') => (Return (head rows), db')
                 | (Throw e, db') => (Throw e, db')
                 end
            else (Throw (AtendimentoModel.validation_failed v), db)
        end
    end.
Proof.
  unfold AtendimentoModel.create, bind_await, lift, throw, resolve.
  destruct (AtendimentoModel.sanitizeAtendimentoData atendimentoData) as [s|e]; [|done].
  destruct (AtendimentoModel.validateAtendimentoData s) as [v|e]; [|done].
  by destruct (AtendimentoModel.isValid v).
Qed.

Lemma update_unfold (id : Z) (atendimentoData : object) (db : Database) :
  AtendimentoModel.update id atendimentoData db
  = match AtendimentoModel.sanitizeAtendimentoData atendimentoData with
    | Throw e => (Throw e, db)
    | Return s =>
        match AtendimentoModel.validateAtendimentoData s with
        | Throw e => (Throw e, db)
        | Return v =>
            if AtendimentoModel.isValid v
            then match query (UPDATE (get s (js "nome")) (get s (js "profissional"))
                                     (get s (js "data")) (get s (js "tipo"))
                                     (get s (js "observacoes")) id) db with
                 | (Return rows, db') => (Return (head rows), db')
                 | (Throw e, db') => (Throw e, db')
                 end
            else (Throw (AtendimentoModel.validation_failed v), db)
        end
    end.
Proof.
  unfold AtendimentoModel.update, bind_await, lift, throw, resolve.
  destruct (AtendimentoModel.sanitizeAtendimentoData atendimentoData) as [s|e]; [|done].
  destruct (AtendimentoModel.validateAtendimentoData s) as [v|e]; [|done].
  by destruct (AtendimentoModel.isValid v).
Qed.

(** Validation of a sanitized object never throws. *)
Lemma validate_sanitized (atendimentoData s : object) :
  AtendimentoModel.sanitizeAtendimentoData atendimentoData = Return s →
  AtendimentoModel.validateAtendimentoData s
  = Return {| AtendimentoModel.isValid := forallb (λ r, negb (violated s r)) rules;
              AtendimentoModel.errors :=
                rule_message <$> filter (λ r, violated s r = true) rules |}.
Proof.
  intros E. apply sanitized_fields in E. subst s.
  apply validate_text; by autorewrite with record_fields.
Qed.

Lemma valid_fields (s : object) :
  forallb (λ r, negb (violated s r)) rules = true →
  missing (get s (js "nome")) = false
  ∧ missing (get s (js "profissional")) = false
  ∧ missing (get s (js "data")) = false
  ∧ ∃ t, get s (js "tipo") = VString t ∧ t ∈ AtendimentoModel.tiposValidos.
Proof.
  unfold rules. cbn [forallb violated].
  rewrite !andb_true_iff, !negb_true_iff, !orb_false_iff.
  intros ([Hn _] & [Hp _] & Hd & [_ Ht] & _). repeat split; [done..|].
  pose proof (tiposValidos_includes_allowed (get s (js "tipo"))) as Hi.
  rewrite Ht in Hi. destruct (get s (js "tipo")) as [| | | |t| |]; try done.
  exists t. split; [done|]. by apply bool_decide_eq_true in Hi.
Qed.

Lemma date_param_present (v : value) (d : Pg.date) :
  missing v = false → date_in v = Some d → date_param v = inr (Some d).
Proof.
  intros Hm Hd. unfold date_param. rewrite Hd. by destruct v.
Qed.

Lemma date_param_rejected (v : value) :
  missing v = false → date_in v = None →
  date_param v = inl (invalid_datetime_format v).
Proof.
  intros Hm Hd. unfold date_param. rewrite Hd. by destruct v.
Qed.

Lemma checked_columns_valid (n p t : jsstring) (d : Pg.date) (o : option jsstring) :
  t ∈ AtendimentoModel.tiposValidos →
  checked_columns (Some n) (Some p) (Some d) (Some t) o
  = inr {| nome := n; profissional := p; data := d; tipo := t; observacoes := o |}.
Proof.
  intros Ht. unfold checked_columns.
  by rewrite bool_decide_eq_true_2.
Qed.


(** *** What a successful call leaves behind *)

Lemma create_returned (atendimentoData : object) (db db' : Database)
    (result : option row) :
  AtendimentoModel.create atendimentoData db = (Return result, db') →
  ∃ r, result = Some r
    ∧ id r = atendimento_id_seq db
    ∧ atendimento db !! id r = None
    ∧ atendimento db' = <[id r := cols r]> (atendimento db).
Proof.
  rewrite create_unfold.
  destruct (AtendimentoModel.sanitizeAtendimentoData atendimentoData) as [s|e]; [|done].
  destruct (AtendimentoModel.validateAtendimentoData s) as [v|e]; [|done].
  destruct (AtendimentoModel.isValid v); [|done].
  unfold query, received, execute, raise. cbn [atendimento atendimento_id_seq statements].
  destruct (date_param (get s (js "data"))) as [e|d]; [done|].
  destruct (checked_columns _ _ _ _ _) as [e|c]; [done|].
  destruct (atendimento db !! atendimento_id_seq db) eqn:Hfree; [done|].
  intros [= <- <-]. by eexists.
Qed.

Lemma findById_unfold (i : Z) (db : Database) :
  AtendimentoModel.findById i db
  = (Return ((λ c, {| id := i; cols := c |}) <$> atendimento db !! i),
     received (SELECT_by_id i) db).
Proof.
  unfold AtendimentoModel.findById, bind_await, resolve, query, execute, received.
  cbn [atendimento atendimento_id_seq statements].
  by destruct (atendimento db !! i).
Qed.

Lemma delete_unfold (i : Z) (db : Database) :
  AtendimentoModel.delete i db
  = (Return ((λ c, {| id := i; cols := c |}) <$> atendimento db !! i),
     with_table (delete i (atendimento db)) (received (DELETE i) db)).
Proof.
  unfold AtendimentoModel.delete, bind_await, resolve, query, execute, received,
    with_table.
  cbn [atendimento atendimento_id_seq statements].
  destruct (atendimento db !! i) eqn:E; [done|].
  by rewrite delete_id.
Qed.

Lemma findAll_unfold (db : Database) :
  AtendimentoModel.findAll db
  = (Return (merge_sort order_by (table_rows (atendimento db))),
     received SELECT_ordered db).
Proof. reflexivity. Qed.

(** *** The listing *)

#[local] Instance order_by_total : Total order_by.
Proof. intros r1 r2. unfold order_by. lia. Qed.

#[local] Instance order_by_transitive : Transitive order_by.
Proof. intros r1 r2 r3. unfold order_by. lia. Qed.

Lemma StronglySorted_lookup_lt {A} (R : relation A) (l : list A) (i j : nat) (x y : A) :
  StronglySorted R l → (i < j)%nat → l !! i = Some x → l !! j = Some y → R x y.
Proof.
  intros Hs. revert i j.
  induction Hs as [|z l Hs IH Hall]; intros i j Hij Hi Hj; [done|].
  destruct j as [|j]; [lia|]. destruct i as [|i].
  - injection Hi as ->. by eapply Forall_lookup_1.
  - eapply (IH i j); [lia|done..].
Qed.

Lemma table_rows_elem (t : gmap Z columns) (r : row) :
  r ∈ table_rows t ↔ t !! id r = Some (cols r).
Proof.
  unfold table_rows. rewrite list_elem_of_fmap. split.
  - intros ([i c] & -> & Hin). by apply elem_of_map_to_list.
  - intros Hl. exists (id r, cols r). split; [by destruct r|].
    by apply elem_of_map_to_list.
Qed.

Lemma table_rows_NoDup (t : gmap Z columns) : NoDup (table_rows t).
Proof.
  unfold table_rows. apply NoDup_fmap_2; [|apply NoDup_map_to_list].
  intros [i1 c1] [i2 c2] [= -> ->]. done.
Qed.

Lemma findAll_rows (db : Database) (rows : list row) :
  rows = merge_sort order_by (table_rows (atendimento db)) →
  (∀ r, r ∈ rows ↔ atendimento db !! id r = Some (cols r))
  ∧ rows ≡ₚ table_rows (atendimento db)
  ∧ (∀ i j ri rj, (i < j)%nat → rows !! i = Some ri → rows !! j = Some rj →
       (data (cols rj) < data (cols ri)
        ∨ (data (cols ri) = data (cols rj) ∧ id rj < id ri))%Z).
Proof.
  intros ->.
  pose proof (merge_sort_Permutation order_by (table_rows (atendimento db))) as Hperm.
  split; [|split; [done|]].
  - intros r. by rewrite Hperm, table_rows_elem.
  - intros i j ri rj Hij Hi Hj.
    pose proof (StronglySorted_merge_sort order_by (table_rows (atendimento db))) as Hs.
    pose proof (StronglySorted_lookup_lt _ _ _ _ _ _ Hs Hij Hi Hj) as Ho.
    assert (NoDup (merge_sort order_by (table_rows (atendimento db)))) as Hnd
      by (rewrite Hperm; apply table_rows_NoDup).
    assert (id ri ≠ id rj) as Hne.
    { intros Heq.
      assert (ri ∈ table_rows (atendimento db)) as Hri
        by (rewrite <- Hperm; by eapply list_elem_of_lookup_2).
      assert (rj ∈ table_rows (atendimento db)) as Hrj
        by (rewrite <- Hperm; by eapply list_elem_of_lookup_2).
      apply table_rows_elem in Hri, Hrj. rewrite Heq in Hri.
      assert (ri = rj) as E
        by (destruct ri, rj; simpl in *; simplify_eq; done).
      subst rj. pose proof (NoDup_lookup _ _ _ _ Hnd Hi Hj). lia. }
    unfold order_by in Ho. lia.
Qed.

(** C3.  Whatever the table holds, [findAll] returns all of its rows and
    only them, by date descending and, among rows of one date, by id
    descending.  In particular, once two records with different dates have
    been inserted (in either order), the one with the later date is listed
    before the other, and on a table that was empty it is the first of the
    two rows returned: a record dated 2024-06-01 comes before one dated
    2024-01-01. *)
Theorem findAll_by_date_then_id_descending (db : Database) :
  ∃ rows, AtendimentoModel.findAll db = (Return rows, received SELECT_ordered db)
    ∧ (∀ r, r ∈ rows ↔ atendimento db !! id r = Some (cols r))
    ∧ rows ≡ₚ table_rows (atendimento db)
    ∧ (∀ i j ri rj, (i < j)%nat → rows !! i = Some ri → rows !! j = Some rj →
         (data (cols rj) < data (cols ri)
          ∨ (data (cols ri) = data (cols rj) ∧ id rj < id ri))%Z)
    ∧ (∀ b1 b2 db1 db2 earlier later,
         (data (cols earlier) < data (cols later))%Z →
         (AtendimentoModel.create b1 db = (Return (Some earlier), db1)
          ∧ AtendimentoModel.create b2 db1 = (Return (Some later), db2))
         ∨ (AtendimentoModel.create b1 db = (Return (Some later), db1)
            ∧ AtendimentoModel.create b2 db1 = (Return (Some earlier), db2)) →
         ∃ listing i j,
           AtendimentoModel.findAll db2 = (Return listing, received SELECT_ordered db2)
           ∧ (i < j)%nat
           ∧ listing !! i = Some later
           ∧ listing !! j = Some earlier
           ∧ (atendimento db = ∅ → listing = [later; earlier])).
Proof.
  eexists. split; [apply findAll_unfold|].
  destruct (findAll_rows db _ eq_refl) as (Hin & Hperm & Hord).
  do 3 (split; [done|]).
  intros b1 b2 db1 db2 earlier later Hdate Hcreated.
  assert (id earlier ≠ id later
          ∧ atendimento db2 !! id earlier = Some (cols earlier)
          ∧ atendimento db2 !! id later = Some (cols later)
          ∧ (atendimento db = ∅ → size (atendimento db2) = 2%nat))
    as (Hne & He & Hl & Hsize).
  { destruct Hcreated as [[H1 H2]|[H1 H2]];
      apply create_returned in H1 as (r1 & [= <-] & _ & Hf1 & Ht1);
      apply create_returned in H2 as (r2 & [= <-] & _ & Hf2 & Ht2);
      rewrite Ht1 in Hf2.
    - assert (id earlier ≠ id later) as Hne
        by (intros E; rewrite E, lookup_insert_eq in Hf2; done).
      rewrite Ht2, Ht1. split; [done|].
      do 2 (split; [by simplify_map_eq|]). intros ->.
      rewrite map_size_insert_None by (by simplify_map_eq).
      by rewrite map_size_insert_None, map_size_empty.
    - assert (id earlier ≠ id later) as Hne
        by (intros E; rewrite E, lookup_insert_eq in Hf2; done).
      rewrite Ht2, Ht1. split; [done|].
      do 2 (split; [by simplify_map_eq|]). intros ->.
      rewrite map_size_insert_None by (by simplify_map_eq).
      by rewrite map_size_insert_None, map_size_empty. }
  destruct (findAll_rows db2 _ eq_refl) as (Hin2 & Hperm2 & Hord2).
  apply Hin2, list_elem_of_lookup_1 in He as [j Hj].
  apply Hin2, list_elem_of_lookup_1 in Hl as [i Hi].
  assert (i < j)%nat as Hij.
  { destruct (lt_eq_lt_dec i j) as [[?|E]|Hji]; [done|..].
    - subst j. rewrite Hi in Hj. injection Hj as ->. lia.
    - pose proof (Hord2 _ _ _ _ Hji Hj Hi). lia. }
  exists (merge_sort order_by (table_rows (atendimento db2))), i, j.
  split; [apply findAll_unfold|]. do 3 (split; [done|]).
  intros Hempty. specialize (Hsize Hempty).
  assert (length (merge_sort order_by (table_rows (atendimento db2))) = 2%nat) as Hlen.
  { rewrite Hperm2. unfold table_rows. by rewrite length_fmap, length_map_to_list. }
  destruct (merge_sort order_by (table_rows (atendimento db2)))
    as [|x [|y [|z l]]]; simpl in Hlen; try lia.
  destruct j as [|[|j]]; [lia| |done].
  destruct i as [|i]; [|lia]. simpl in Hi, Hj. congruence.
Qed.

(** *** The sequence stays ahead of the table *)

Lemma sequence_ahead_empty : sequence_ahead empty_database.
Proof. intros i [c Hc]. simpl in Hc. by rewrite lookup_empty in Hc. Qed.

Lemma sequence_ahead_query (text : sql) (db : Database) :
  sequence_ahead db → sequence_ahead (query text db).2.
Proof.
  intros Hinv. unfold query, received, execute, raise, sequence_ahead in *.
  destruct text as [|i|p1 p2 p3 p4 p5|p1 p2 p3 p4 p5 i|i];
    cbn [atendimento atendimento_id_seq statements].
  - done.
  - done.
  - destruct (date_param p3) as [e|d]; [done|].
    destruct (checked_columns _ _ _ _ _) as [e|c];
      [intros j Hj; specialize (Hinv j Hj); simpl; lia|].
    destruct (atendimento db !! atendimento_id_seq db) as [c0|] eqn:Hfree;
      [intros j Hj; specialize (Hinv j Hj); simpl; lia|].
    intros j. cbn [snd with_table atendimento atendimento_id_seq].
    rewrite lookup_insert. case_decide; [lia|].
    intros Hj. specialize (Hinv j Hj). lia.
  - destruct (date_param p3) as [e|d]; [done|].
    destruct (atendimento db !! i) as [c0|] eqn:Hrow; [|done].
    destruct (checked_columns _ _ _ _ _) as [e|c]; [done|].
    intros j. cbn [snd with_table atendimento atendimento_id_seq].
    rewrite lookup_insert. case_decide; [|by apply Hinv].
    subst j. intros _. apply Hinv. by rewrite Hrow.
  - destruct (atendimento db !! i) as [c0|] eqn:Hrow; [|done].
    intros j. cbn [snd with_table atendimento atendimento_id_seq].
    rewrite lookup_delete. case_decide; [by intros [? ?]|by apply Hinv].
Qed.


End model_properties.

(** ** The controller *)

Section controller_properties.
Context `{!Postgres} `{!AtendimentoController.Locale} (now : jsstring).



(** The id guard of the three handlers, [!id || isNaN(parseInt(id))].  A
    GET-by-id, PUT or DELETE request whose id parameter is missing, empty,
    or one [parseInt] reads no integer from (no digit after optional white
    space, a sign and a [0x] prefix) is answered with HTTP 400 whatever the
    model is, and the model is not called: the state behind it is
    untouched.  Any other id reaches the model as the integer [parseInt]
    reads from its leading digits: that integer is the parameter of the
    statement the store receives. *)
Theorem invalid_id_rejected_before_model (req : AtendimentoController.request) :
  (AtendimentoController.id_param req = None
   ↔ AtendimentoController.params_id req = None
     ∨ AtendimentoController.params_id req = Some []
     ∨ ∃ id, AtendimentoController.params_id req = Some id
             ∧ AtendimentoController.parseInt id = None)
  ∧ (∀ (S : Type) (m : Model.ops S) (s : S),
       AtendimentoController.id_param req = None →
       let bad_request :=
         {| AtendimentoController.status := 400;
            AtendimentoController.json :=
              {| AtendimentoController.success := false;
                 AtendimentoController.data_ := AtendimentoController.null;
                 AtendimentoController.message_ := js "Invalid ID parameter";
                 AtendimentoController.errors := [js "ID must be a valid number"];
                 AtendimentoController.timestamp := now |} |} in
       AtendimentoController.getAtendimentoById m now req s = (bad_request, s)
       ∧ AtendimentoController.updateAtendimento m now req s = (bad_request, s)
       ∧ AtendimentoController.deleteAtendimento m now req s = (bad_request, s))
  ∧ (∀ (n : Z) (db : Database),
       AtendimentoController.id_param req = Some n →
       (∃ id, AtendimentoController.params_id req = Some id
              ∧ AtendimentoController.parseInt id = Some n)
       ∧ statements (AtendimentoController.getAtendimentoById atendimentoModel now req db).2
         = SELECT_by_id n :: statements db
       ∧ statements (AtendimentoController.deleteAtendimento atendimentoModel now req db).2
         = DELETE n :: statements db
       ∧ (statements (AtendimentoController.updateAtendimento atendimentoModel now req db).2
          = statements db
          ∨ ∃ p1 p2 p3 p4 p5,
              statements (AtendimentoController.updateAtendimento atendimentoModel now req db).2
              = UPDATE p1 p2 p3 p4 p5 n :: statements db)).
Proof.
  split; [|split].
  - unfold AtendimentoController.id_param.
    destruct (AtendimentoController.params_id req) as [id|]; [|by intuition].
    case_bool_decide as E.
    + subst id. by intuition.
    + split.
      * intros Hp. right. right. by exists id.
      * intros [?|[?|(id' & ? & ?)]]; by simplify_eq.
  - intros S m s Hid.
    unfold AtendimentoController.getAtendimentoById,
      AtendimentoController.updateAtendimento,
      AtendimentoController.deleteAtendimento.
    by rewrite Hid.
  - intros n db Hid. split; [|split; [|split]].
    + unfold AtendimentoController.id_param in Hid.
      destruct (AtendimentoController.params_id req) as [id|]; [|done].
      case_bool_decide; [done|]. by exists id.
    + unfold AtendimentoController.getAtendimentoById. rewrite Hid.
      cbn [Model.findById atendimentoModel]. rewrite findById_unfold.
      by destruct (atendimento db !! n).
    + unfold AtendimentoController.deleteAtendimento. rewrite Hid.
      cbn [Model.delete atendimentoModel]. rewrite delete_unfold.
      by destruct (atendimento db !! n).
    + unfold AtendimentoController.updateAtendimento. rewrite Hid.
      cbn [Model.update atendimentoModel]. rewrite update_unfold.
      destruct (AtendimentoModel.sanitizeAtendimentoData _) as [s|e].
      2:{ left. by destruct (includes _ _). }
      destruct (AtendimentoModel.validateAtendimentoData s) as [v|e].
      2:{ left. by destruct (includes _ _). }
      destruct (AtendimentoModel.isValid v).
      2:{ left. by destruct (includes _ _). }
      right. do 5 eexists.
      unfold query, received, execute, raise.
      cbn [atendimento atendimento_id_seq statements].
      destruct (date_param _) as [e|d]; [by destruct (includes _ _)|].
      destruct (atendimento db !! n) as [c0|]; [|done].
      destruct (checked_columns _ _ _ _ _) as [e|c]; [by destruct (includes _ _)|].
      done.
Qed.

(** C6.  Whenever [create] returns a record, fetching by the returned id
    gives back that very record, equal on id, nome, profissional, data,
    tipo and observacoes.  Over HTTP the POST and the GET carry the same
    record; in both the date, and nothing else, is replaced by its display
    string. *)
Theorem create_then_findById (atendimentoData : object) (db db' : Database) (r : row) :
  AtendimentoModel.create atendimentoData db = (Return (Some r), db') →
  AtendimentoModel.findById (id r) db'
  = (Return (Some r), received (SELECT_by_id (id r)) db')
  ∧ ∀ post get_,
      AtendimentoController.body post = atendimentoData →
      AtendimentoController.id_param get_ = Some (id r) →
      let shown :=
        AtendimentoController.one
          {| AtendimentoController.id := id r;
             AtendimentoController.nome := nome (cols r);
             AtendimentoController.profissional := profissional (cols r);
             AtendimentoController.data :=
               AtendimentoController.toLocaleDateString (data (cols r));
             AtendimentoController.tipo := tipo (cols r);
             AtendimentoController.observacoes := observacoes (cols r) |} in
      AtendimentoController.createAtendimento atendimentoModel now post db
      = ({| AtendimentoController.status := 201;
            AtendimentoController.json :=
              {| AtendimentoController.success := true;
                 AtendimentoController.data_ := shown;
                 AtendimentoController.message_ := js "Atendimento created successfully";
                 AtendimentoController.errors := [];
                 AtendimentoController.timestamp := now |} |}, db')
      ∧ AtendimentoController.getAtendimentoById atendimentoModel now get_ db'
        = ({| AtendimentoController.status := 200;
              AtendimentoController.json :=
                {| AtendimentoController.success := true;
                   AtendimentoController.data_ := shown;
                   AtendimentoController.message_ :=
                     js "Atendimento retrieved successfully";
                   AtendimentoController.errors := [];
                   AtendimentoController.timestamp := now |} |},
           received (SELECT_by_id (id r)) db').
Proof.
  intros Hcreate.
  destruct (create_returned _ _ _ _ Hcreate) as (r' & [= <-] & _ & _ & Htable).
  assert (AtendimentoModel.findById (id r) db'
          = (Return (Some r), received (SELECT_by_id (id r)) db')) as Hfind.
  { rewrite findById_unfold, Htable, lookup_insert_eq. by destruct r. }
  split; [done|]. intros post get_ Hbody Hid shown. split.
  - unfold AtendimentoController.createAtendimento.
    cbn [Model.create atendimentoModel]. by rewrite Hbody, Hcreate.
  - unfold AtendimentoController.getAtendimentoById. rewrite Hid.
    cbn [Model.findById atendimentoModel]. by rewrite Hfind.
Qed.


(** C10.  When DELETE succeeds, the model has returned the complete
    deleted row and removed it from the table, and the [data] field of the
    response holds [{id}] alone: the id of that row and none of its other
    fields.  This holds for any model that returns a row. *)
Theorem delete_response_carries_only_id (req : AtendimentoController.request) (i : Z) :
  AtendimentoController.id_param req = Some i →
  let deleted (r : row) :=
    {| AtendimentoController.status := 200;
       AtendimentoController.json :=
         {| AtendimentoController.success := true;
            AtendimentoController.data_ := AtendimentoController.only_id (id r);
            AtendimentoController.message_ := js "Atendimento deleted successfully";
            AtendimentoController.errors := [];
            AtendimentoController.timestamp := now |} |} in
  (∀ (S : Type) (m : Model.ops S) (s s' : S) (r : row),
     Model.delete m i s = (Return (Some r), s') →
     AtendimentoController.deleteAtendimento m now req s = (deleted r, s'))
  ∧ (∀ (db : Database) (c : columns),
       atendimento db !! i = Some c →
       let r := {| id := i; cols := c |} in
       let db' := with_table (delete i (atendimento db)) (received (DELETE i) db) in
       AtendimentoModel.delete i db = (Return (Some r), db')
       ∧ AtendimentoController.deleteAtendimento atendimentoModel now req db
         = (deleted r, db')
       ∧ atendimento db' !! i = None).
Proof.
  intros Hid deleted. split.
  - intros S m s s' r Hdel.
    unfold AtendimentoController.deleteAtendimento. by rewrite Hid, Hdel.
  - intros db c Hrow r db'.
    assert (AtendimentoModel.delete i db = (Return (Some r), db')) as Hdel
      by (by rewrite delete_unfold, Hrow).
    split; [done|]. split.
    + unfold AtendimentoController.deleteAtendimento. rewrite Hid.
      cbn [Model.delete atendimentoModel]. by rewrite Hdel.
    + apply lookup_delete_eq.
Qed.


End controller_properties.

(** ** The program run on the concrete store *)

Section runs.
Local Open Scope Z_scope.
#[local] Existing Instance Fixture.postgres.
#[local] Existing Instance Fixture.locale.



(** C3 on the concrete store: a record dated 2024-01-01 (day 19723) is
    inserted, then one dated 2024-06-01 (day 19875); the listing starts
    with the second. *)
Lemma findAll_by_date_then_id_descending_witness :
  ∃ db1 db2,
    AtendimentoModel.create (Fixture.visit "Ana" "2024-01-01") empty_database
    = (Return (Some (Fixture.stored 1 "Ana" 19723)), db1)
    ∧ AtendimentoModel.create (Fixture.visit "Bia" "2024-06-01") db1
      = (Return (Some (Fixture.stored 2 "Bia" 19875)), db2)
    ∧ (AtendimentoModel.findAll db2).1
      = Return [Fixture.stored 2 "Bia" 19875; Fixture.stored 1 "Ana" 19723].
Proof.
  set (db1 := (AtendimentoModel.create (Fixture.visit "Ana" "2024-01-01")
                 empty_database).2).
  set (db2 := (AtendimentoModel.create (Fixture.visit "Bia" "2024-06-01") db1).2).
  assert (AtendimentoModel.create (Fixture.visit "Ana" "2024-01-01") empty_database
          = (Return (Some (Fixture.stored 1 "Ana" 19723)), db1)) as H1
    by (by vm_compute).
  assert (AtendimentoModel.create (Fixture.visit "Bia" "2024-06-01") db1
          = (Return (Some (Fixture.stored 2 "Bia" 19875)), db2)) as H2
    by (by vm_compute).
  destruct (findAll_by_date_then_id_descending empty_database)
    as (_ & _ & _ & _ & _ & Hscenario).
  assert (data (cols (Fixture.stored 1 "Ana" 19723))
          < data (cols (Fixture.stored 2 "Bia" 19875))) as Hlt by (simpl; lia).
  destruct (Hscenario _ _ db1 db2 _ _ Hlt (or_introl (conj H1 H2)))
    as (listing & i & j & Hl & _ & _ & _ & Hfirst).
  specialize (Hfirst eq_refl).
  exists db1, db2. split; [exact H1|]. split; [exact H2|].
  rewrite Hl. cbn [fst]. by rewrite Hfirst.
Defined.

(** C4.  The handlers mean to turn away every id that is not a number
    ("ID must be a valid number"), but [parseInt] stops at the first
    character that is no digit and keeps what it has read: on
    [/atendimento/12abc] the model is asked for id 12 and the answer is
    404, where the claim has 400 and no call to the model. *)
Lemma non_numeric_id_reaches_model :
  AtendimentoController.parseInt (js "12abc") = Some 12%Z
  ∧ AtendimentoController.getAtendimentoById atendimentoModel Fixture.now
      (Fixture.on_id "12abc" []) empty_database
    = ({| AtendimentoController.status := 404;
          AtendimentoController.json :=
            {| AtendimentoController.success := false;
               AtendimentoController.data_ := AtendimentoController.null;
               AtendimentoController.message_ := js "Atendimento not found";
               AtendimentoController.errors := [];
               AtendimentoController.timestamp := Fixture.now |} |},
       received (SELECT_by_id 12) empty_database).
Proof. split; by vm_compute. Qed.

(** The guard at [/atendimento/abc] (rejected) and [/atendimento/42]
    (id 42 reaches the store). *)
Lemma invalid_id_rejected_before_model_witness :
  AtendimentoController.status
    (AtendimentoController.deleteAtendimento atendimentoModel Fixture.now
       (Fixture.on_id "abc" []) empty_database).1 = 400%Z
  ∧ (AtendimentoController.deleteAtendimento atendimentoModel Fixture.now
       (Fixture.on_id "abc" []) empty_database).2 = empty_database
  ∧ statements
      (AtendimentoController.deleteAtendimento atendimentoModel Fixture.now
         (Fixture.on_id "42" []) empty_database).2 = [DELETE 42].
Proof.
  destruct (invalid_id_rejected_before_model Fixture.now (Fixture.on_id "abc" []))
    as (_ & Hbad & _).
  destruct (Hbad _ atendimentoModel empty_database) as (_ & _ & ->); [by vm_compute|].
  destruct (invalid_id_rejected_before_model Fixture.now (Fixture.on_id "42" []))
    as (_ & _ & Hgood).
  destruct (Hgood 42%Z empty_database) as (_ & _ & -> & _); [by vm_compute|].
  done.
Defined.

(** C6 on the concrete store. *)
Lemma create_then_findById_witness :
  ∃ db',
    AtendimentoModel.create Fixture.ana empty_database
    = (Return (Some (Fixture.stored 1 "Ana" 19783)), db')
    ∧ AtendimentoModel.findById 1 db'
      = (Return (Some (Fixture.stored 1 "Ana" 19783)), received (SELECT_by_id 1) db').
Proof.
  set (db' := (AtendimentoModel.create Fixture.ana empty_database).2).
  assert (AtendimentoModel.create Fixture.ana empty_database
          = (Return (Some (Fixture.stored 1 "Ana" 19783)), db')) as Hc
    by (by vm_compute).
  exists db'. split; [done|].
  exact (proj1 (create_then_findById Fixture.now Fixture.ana empty_database db' _ Hc)).
Defined.




(** C10 on the concrete store: a row is created, then deleted by id. *)
Lemma delete_response_carries_only_id_witness :
  ∃ db1,
    AtendimentoModel.create Fixture.ana empty_database
    = (Return (Some (Fixture.stored 1 "Ana" 19783)), db1)
    ∧ AtendimentoController.id_param (Fixture.on_id "1" []) = Some 1%Z
    ∧ AtendimentoModel.delete 1 db1
      = (Return (Some (Fixture.stored 1 "Ana" 19783)),
         with_table (delete 1%Z (atendimento db1)) (received (DELETE 1) db1))
    ∧ AtendimentoController.data_
        (AtendimentoController.json
           (AtendimentoController.deleteAtendimento atendimentoModel Fixture.now
              (Fixture.on_id "1" []) db1).1)
      = AtendimentoController.only_id 1.
Proof.
  set (db1 := (AtendimentoModel.create Fixture.ana empty_database).2).
  assert (AtendimentoModel.create Fixture.ana empty_database
          = (Return (Some (Fixture.stored 1 "Ana" 19783)), db1)) as Hc
    by (by vm_compute).
  assert (atendimento db1 !! 1%Z = Some (cols (Fixture.stored 1 "Ana" 19783))) as Hrow
    by (by vm_compute).
  assert (AtendimentoController.id_param (Fixture.on_id "1" []) = Some 1%Z) as Hparam
    by (by vm_compute).
  exists db1. do 2 (split; [done|]).
  destruct (delete_response_carries_only_id Fixture.now (Fixture.on_id "1" []) 1 Hparam)
    as [_ Hreal].
  destruct (Hreal db1 _ Hrow) as (Hdel & -> & _). by split.
Defined.

End runs.

(** * Further properties of the model, the controller, the router and the
    client *)

(** ** Bodies the model accepts *)

Section accepted_bodies.
Context `{!Postgres}.

Lemma accepted_fields (atendimentoData : object) :
  accepted atendimentoData →
  ∃ s t,
    AtendimentoModel.sanitizeAtendimentoData atendimentoData = Return s
    ∧ AtendimentoModel.validateAtendimentoData s
      = Return {| AtendimentoModel.isValid := true; AtendimentoModel.errors := [] |}
    ∧ get s (js "nome") = VString (trimmed (get atendimentoData (js "nome")))
    ∧ get s (js "profissional")
      = VString (trimmed (get atendimentoData (js "profissional")))
    ∧ get s (js "data") = get atendimentoData (js "data")
    ∧ get s (js "tipo") = VString t
    ∧ get s (js "observacoes")
      = VString (trimmed (get atendimentoData (js "observacoes")))
    ∧ get atendimentoData (js "tipo") = VString t
    ∧ t ∈ AtendimentoModel.tiposValidos
    ∧ missing (get atendimentoData (js "data")) = false
    ∧ trimmed (get atendimentoData (js "nome")) ≠ []
    ∧ trimmed (get atendimentoData (js "profissional")) ≠ [].
Proof.
  intros (s & v & Hs & Hv & Hvalid).
  pose proof (validate_sanitized _ _ Hs) as Hv'. rewrite Hv in Hv'.
  injection Hv' as ->. cbn [AtendimentoModel.isValid] in Hvalid.
  pose proof (sanitized_fields _ _ Hs) as Hf.
  assert (filter (λ r, violated s r = true) rules = []) as Hnone.
  { unfold rules in *. cbn [forallb] in Hvalid.
    rewrite !filter_cons, filter_nil. cbn [violated].
    destruct (missing (get s (js "nome")) || _); [done|].
    destruct (missing (get s (js "profissional")) || _); [done|].
    destruct (missing (get s (js "data"))); [done|].
    by destruct (missing (get s (js "tipo")) || _). }
  destruct (valid_fields _ Hvalid) as (Hn & Hp & Hd & t & Ht & Hin).
  exists s, t. split; [done|]. split; [by rewrite Hv, Hvalid, Hnone|].
  subst s. autorewrite with record_fields in *.
  repeat split; try done.
  - unfold missing in Hn. simpl in Hn. intros E. rewrite E in Hn. done.
  - unfold missing in Hp. simpl in Hp. intros E. rewrite E in Hp. done.
Qed.

Lemma trim_trimmed (v : value) : trim (trimmed v) = trimmed v.
Proof. apply (trimmed_trimmed v). Qed.

Lemma written_sanitized (atendimentoData : object) (d : Pg.date) :
  accepted atendimentoData → sanitized_row (written atendimentoData d).
Proof.
  intros Hacc.
  destruct (accepted_fields _ Hacc)
    as (s & t & _ & _ & _ & _ & _ & _ & _ & Ht & Hin & _ & Hn & Hp).
  unfold sanitized_row, written. cbn [nome profissional tipo observacoes].
  rewrite Ht, !trim_trimmed. repeat split; try done.
  eexists. split; [done|]. apply trim_trimmed.
Qed.

(** What [create] does with an accepted body, case by case. *)
Lemma create_accepted (atendimentoData : object) (db : Database) :
  accepted atendimentoData →
  ∃ s, AtendimentoModel.sanitizeAtendimentoData atendimentoData = Return s
    ∧ AtendimentoModel.create atendimentoData db
      = match date_in (get atendimentoData (js "data")) with
        | None =>
            (Throw (DatabaseError
                      (pg_message (invalid_datetime_format
                                     (get atendimentoData (js "data"))))),
             received (insert_of s) db)
        | Some d =>
            let i := atendimento_id_seq db in
            match atendimento db !! i with
            | Some _ =>
                (Throw (DatabaseError (pg_message (unique_violation i))),
                 {| atendimento := atendimento db;
                    atendimento_id_seq := (i + 1)%Z;
                    statements := insert_of s :: statements db |})
            | None =>
                (Return (Some {| id := i; cols := written atendimentoData d |}),
                 {| atendimento := <[i := written atendimentoData d]> (atendimento db);
                    atendimento_id_seq := (i + 1)%Z;
                    statements := insert_of s :: statements db |})
            end
        end.
Proof.
  intros Hacc.
  destruct (accepted_fields _ Hacc)
    as (s & t & Hs & Hv & Hn & Hp & Hd & Ht & Ho & Ht' & Hin & Hmd & _).
  exists s. split; [done|].
  rewrite create_unfold, Hs, Hv. cbn [AtendimentoModel.isValid].
  unfold query, received, execute, raise, insert_of, written.
  cbn [atendimento atendimento_id_seq statements].
  rewrite Hn, Hp, Hd, Ht, Ho, Ht'.
  destruct (date_in (get atendimentoData (js "data"))) as [d|] eqn:Hdate.
  - rewrite (date_param_present _ _ Hmd Hdate). cbn [text_param].
    rewrite (checked_columns_valid _ _ _ _ _ Hin).
    by destruct (atendimento db !! atendimento_id_seq db).
  - by rewrite (date_param_rejected _ Hmd Hdate).
Qed.

(** What [update] does with an accepted body, case by case. *)
Lemma update_accepted (i : Z) (atendimentoData : object) (db : Database) :
  accepted atendimentoData →
  ∃ s, AtendimentoModel.sanitizeAtendimentoData atendimentoData = Return s
    ∧ AtendimentoModel.update i atendimentoData db
      = match date_in (get atendimentoData (js "data")) with
        | None =>
            (Throw (DatabaseError
                      (pg_message (invalid_datetime_format
                                     (get atendimentoData (js "data"))))),
             received (update_of s i) db)
        | Some d =>
            match atendimento db !! i with
            | None => (Return None, received (update_of s i) db)
            | Some _ =>
                (Return (Some {| id := i; cols := written atendimentoData d |}),
                 with_table (<[i := written atendimentoData d]> (atendimento db))
                            (received (update_of s i) db))
            end
        end.
Proof.
  intros Hacc.
  destruct (accepted_fields _ Hacc)
    as (s & t & Hs & Hv & Hn & Hp & Hd & Ht & Ho & Ht' & Hin & Hmd & _).
  exists s. split; [done|].
  rewrite update_unfold, Hs, Hv. cbn [AtendimentoModel.isValid].
  unfold query, received, execute, raise, update_of, written, with_table.
  cbn [atendimento atendimento_id_seq statements].
  rewrite Hn, Hp, Hd, Ht, Ho, Ht'.
  destruct (date_in (get atendimentoData (js "data"))) as [d|] eqn:Hdate.
  - rewrite (date_param_present _ _ Hmd Hdate). cbn [text_param].
    destruct (atendimento db !! i) as [c0|]; [|done].
    by rewrite (checked_columns_valid _ _ _ _ _ Hin).
  - by rewrite (date_param_rejected _ Hmd Hdate).
Qed.

(** A body that is not accepted never reaches the store. *)
Lemma create_not_accepted (atendimentoData : object) (db : Database) :
  ¬ accepted atendimentoData →
  ∃ e, AtendimentoModel.create atendimentoData db = (Throw e, db)
       ∧ ∀ i, AtendimentoModel.update i atendimentoData db = (Throw e, db).
Proof.
  intros Hno.
  destruct (AtendimentoModel.sanitizeAtendimentoData atendimentoData) as [s|e] eqn:Hs.
  - pose proof (validate_sanitized _ _ Hs) as Hv.
    destruct (forallb (λ r, negb (violated s r)) rules) eqn:Hvalid.
    + exfalso. apply Hno. exists s. eexists. by rewrite Hv.
    + eexists. split; [|intros i].
      * by rewrite create_unfold, Hs, Hv.
      * by rewrite update_unfold, Hs, Hv.
  - exists e. split; [|intros i].
    + by rewrite create_unfold, Hs.
    + by rewrite update_unfold, Hs.
Qed.

End accepted_bodies.

(** ** The store stays consistent *)

Section consistency.
Context `{!Postgres} `{!AtendimentoController.Locale}.

Lemma accepted_or_not (atendimentoData : object) :
  accepted atendimentoData ∨ ¬ accepted atendimentoData.
Proof.
  destruct (AtendimentoModel.sanitizeAtendimentoData atendimentoData) as [s|e] eqn:Hs.
  - pose proof (validate_sanitized _ _ Hs) as Hv.
    destruct (forallb (λ r, negb (violated s r)) rules) eqn:Hvalid.
    + left. exists s. eexists. by rewrite Hv.
    + right. intros (s' & v & Hs' & Hv' & Hvalid').
      rewrite Hs in Hs'. injection Hs' as <-.
      rewrite Hv in Hv'. injection Hv' as <-. done.
  - right. intros (s' & v & Hs' & _). congruence.
Qed.

Lemma sound_step_refl (db : Database) : sound_step db db.
Proof. split; [done|lia]. Qed.

Lemma sound_step_same_table (db db' : Database) :
  atendimento db' = atendimento db →
  (atendimento_id_seq db ≤ atendimento_id_seq db')%Z →
  sound_step db db'.
Proof.
  intros Ht Hseq. split; [|done].
  intros [Hahead Hrows]. split.
  - intros i Hi. rewrite Ht in Hi. specialize (Hahead i Hi). lia.
  - intros i c. rewrite Ht. apply Hrows.
Qed.

Lemma sound_step_trans (db1 db2 db3 : Database) :
  sound_step db1 db2 → sound_step db2 db3 → sound_step db1 db3.
Proof. intros [H1 L1] [H2 L2]. split; [auto|lia]. Qed.

Lemma findAll_sound (db : Database) :
  sound_step db (AtendimentoModel.findAll db).2.
Proof. rewrite findAll_unfold. by apply sound_step_same_table. Qed.

Lemma findById_sound (i : Z) (db : Database) :
  sound_step db (AtendimentoModel.findById i db).2.
Proof. rewrite findById_unfold. by apply sound_step_same_table. Qed.

Lemma delete_sound (i : Z) (db : Database) :
  sound_step db (AtendimentoModel.delete i db).2.
Proof.
  rewrite delete_unfold. cbn [snd]. split; [|done].
  intros [Hahead Hrows]. split.
  - intros j. cbn [with_table received atendimento atendimento_id_seq].
    rewrite lookup_delete. case_decide; [by intros [? ?]|apply Hahead].
  - intros j c. cbn [with_table received atendimento].
    rewrite lookup_delete. case_decide; [done|apply Hrows].
Qed.

Lemma create_sound (atendimentoData : object) (db : Database) :
  sound_step db (AtendimentoModel.create atendimentoData db).2.
Proof.
  destruct (accepted_or_not atendimentoData) as [Hacc|Hno].
  - destruct (create_accepted atendimentoData db Hacc) as (s & _ & ->).
    destruct (date_in (get atendimentoData (js "data"))) as [d|];
      [|by apply sound_step_same_table].
    cbn zeta.
    destruct (atendimento db !! atendimento_id_seq db) as [c0|] eqn:Hfree;
      [apply sound_step_same_table; simpl; [done|lia]|].
    cbn [snd]. split; [|simpl; lia].
    intros [Hahead Hrows]. split.
    + intros j. cbn [atendimento atendimento_id_seq].
      rewrite lookup_insert. case_decide; [lia|].
      intros Hj. specialize (Hahead j Hj). lia.
    + intros j c. cbn [atendimento].
      rewrite lookup_insert. case_decide; [|apply Hrows].
      intros [= <-]. by apply written_sanitized.
  - destruct (create_not_accepted atendimentoData db Hno) as (e & -> & _).
    apply sound_step_refl.
Qed.

Lemma update_sound (i : Z) (atendimentoData : object) (db : Database) :
  sound_step db (AtendimentoModel.update i atendimentoData db).2.
Proof.
  destruct (accepted_or_not atendimentoData) as [Hacc|Hno].
  - destruct (update_accepted i atendimentoData db Hacc) as (s & _ & ->).
    destruct (date_in (get atendimentoData (js "data"))) as [d|];
      [|by apply sound_step_same_table].
    destruct (atendimento db !! i) as [c0|] eqn:Hrow;
      [|by apply sound_step_same_table].
    cbn [snd]. split; [|done].
    intros [Hahead Hrows]. split.
    + intros j. cbn [with_table received atendimento atendimento_id_seq].
      rewrite lookup_insert. case_decide; [|apply Hahead].
      subst j. intros _. apply Hahead. by rewrite Hrow.
    + intros j c. cbn [with_table received atendimento].
      rewrite lookup_insert. case_decide; [|apply Hrows].
      intros [= <-]. by apply written_sanitized.
  - destruct (create_not_accepted atendimentoData db Hno) as (e & _ & Hu).
    rewrite Hu. apply sound_step_refl.
Qed.

(** The state a handler leaves is the state its one model call leaves. *)
Lemma handler_states {S : Type} (m : Model.ops S) (now : jsstring)
    (req : AtendimentoController.request) (s : S) :
  (AtendimentoController.getAllAtendimentos m now req s).2 = (Model.findAll m s).2
  ∧ (AtendimentoController.createAtendimento m now req s).2
    = (Model.create m (AtendimentoController.body req) s).2
  ∧ (AtendimentoController.getAtendimentoById m now req s).2
    = match AtendimentoController.id_param req with
      | None => s
      | Some id => (Model.findById m id s).2
      end
  ∧ (AtendimentoController.updateAtendimento m now req s).2
    = match AtendimentoController.id_param req with
      | None => s
      | Some id => (Model.update m id (AtendimentoController.body req) s).2
      end
  ∧ (AtendimentoController.deleteAtendimento m now req s).2
    = match AtendimentoController.id_param req with
      | None => s
      | Some id => (Model.delete m id s).2
      end.
Proof.
  unfold AtendimentoController.getAllAtendimentos,
    AtendimentoController.createAtendimento,
    AtendimentoController.getAtendimentoById,
    AtendimentoController.updateAtendimento,
    AtendimentoController.deleteAtendimento.
  repeat split.
  - by destruct (Model.findAll m s) as [[?|?] ?].
  - destruct (Model.create m _ s) as [[?|e] ?]; [done|].
    by destruct (includes _ _).
  - destruct (AtendimentoController.id_param req); [|done].
    by destruct (Model.findById m _ s) as [[[?|]|?] ?].
  - destruct (AtendimentoController.id_param req); [|done].
    destruct (Model.update m _ _ s) as [[[?|]|e] ?]; [done..|].
    by destruct (includes _ _).
  - destruct (AtendimentoController.id_param req); [|done].
    by destruct (Model.delete m _ s) as [[[?|]|?] ?].
Qed.

Lemma handlers_sound (now : jsstring) (req : AtendimentoController.request)
    (db : Database) :
  sound_step db (AtendimentoController.getAllAtendimentos atendimentoModel now req db).2
  ∧ sound_step db (AtendimentoController.createAtendimento atendimentoModel now req db).2
  ∧ sound_step db (AtendimentoController.getAtendimentoById atendimentoModel now req db).2
  ∧ sound_step db (AtendimentoController.updateAtendimento atendimentoModel now req db).2
  ∧ sound_step db (AtendimentoController.deleteAtendimento atendimentoModel now req db).2.
Proof.
  destruct (handler_states atendimentoModel now req db) as (-> & -> & -> & -> & ->).
  unfold atendimentoModel.
  cbn [Model.findAll Model.create Model.findById Model.update Model.delete].
  split; [apply findAll_sound|]. split; [apply create_sound|].
  destruct (AtendimentoController.id_param req) as [id|];
    [|split; [|split]; apply sound_step_refl].
  split; [apply findById_sound|]. split; [apply update_sound|apply delete_sound].
Qed.

Lemma serve_state {S : Type} (m : Model.ops S) (r : AtendimentoRoutes.incoming) (s : S) :
  (AtendimentoRoutes.serve m r s).2
  = match AtendimentoRoutes.route m r with
    | Some handler => (handler s).2
    | None => s
    end.
Proof.
  unfold AtendimentoRoutes.serve.
  destruct (AtendimentoRoutes.route m r) as [h|]; [|done]. by destruct (h s).
Qed.

Lemma serve_sound (r : AtendimentoRoutes.incoming) (db : Database) :
  sound_step db (AtendimentoRoutes.serve atendimentoModel r db).2.
Proof.
  rewrite serve_state.
  unfold AtendimentoRoutes.route, AtendimentoRoutes.asyncHandler.
  destruct (AtendimentoRoutes.verb r), (AtendimentoRoutes.path r) as [|id [|]].
  all: lazymatch goal with
       | |- sound_step ?d ?d => exact (sound_step_refl d)
       | |- sound_step _ (?h _ ?now ?req _).2 =>
           destruct (handlers_sound now req db) as (Hall & Hpost & Hget & Hput & Hdel);
           first [ exact Hall | exact Hpost | exact Hget | exact Hput | exact Hdel ]
       end.
Qed.

Lemma run_sound (rs : list AtendimentoRoutes.incoming) (db : Database) :
  sound_step db (AtendimentoRoutes.run atendimentoModel rs db).
Proof.
  revert db. induction rs as [|r rs IH]; intros db; [apply sound_step_refl|].
  cbn [AtendimentoRoutes.run foldl].
  eapply sound_step_trans; [apply serve_sound|apply IH].
Qed.

Lemma consistent_empty : consistent empty_database.
Proof.
  split; [apply sequence_ahead_empty|].
  intros i c Hc. simpl in Hc. by rewrite lookup_empty in Hc.
Qed.

End consistency.

(** ** Rows come and go one at a time *)

Section rows.
Context `{!Postgres} `{!AtendimentoController.Locale}.

Lemma create_inv (atendimentoData : object) (db db' : Database) (r : row) :
  AtendimentoModel.create atendimentoData db = (Return (Some r), db') →
  accepted atendimentoData
  ∧ ∃ d, date_in (get atendimentoData (js "data")) = Some d
      ∧ r = {| id := atendimento_id_seq db; cols := written atendimentoData d |}
      ∧ atendimento db !! atendimento_id_seq db = None
      ∧ atendimento db' = <[id r := cols r]> (atendimento db)
      ∧ atendimento_id_seq db' = (id r + 1)%Z.
Proof.
  intros Hc. destruct (accepted_or_not atendimentoData) as [Hacc|Hno].
  - split; [done|].
    destruct (create_accepted atendimentoData db Hacc) as (s & _ & Heq).
    rewrite Heq in Hc.
    destruct (date_in (get atendimentoData (js "data"))) as [d|]; [|done].
    cbn zeta in Hc.
    destruct (atendimento db !! atendimento_id_seq db) as [c0|]; [done|].
    injection Hc as <- <-. by exists d.
  - destruct (create_not_accepted atendimentoData db Hno) as (e & He & _).
    congruence.
Qed.

(** X1.  Starting from the empty table, whatever requests the router
    serves, every stored row is a sanitized one (nome and profissional
    trimmed and not empty, tipo one of the three allowed values,
    observacoes a trimmed string) and every stored id is below the next
    value of the sequence. *)
Theorem served_store_is_consistent (rs : list AtendimentoRoutes.incoming) :
  consistent (AtendimentoRoutes.run atendimentoModel rs empty_database).
Proof. apply run_sound, consistent_empty. Qed.


(** X3.  Ids are never handed out twice: a record created after another
    one, whatever requests were served in between (deletions included),
    gets a larger id. *)
Theorem ids_are_never_reused
    (b1 b2 : object) (rs : list AtendimentoRoutes.incoming)
    (db db1 db2 : Database) (r1 r2 : row) :
  AtendimentoModel.create b1 db = (Return (Some r1), db1) →
  AtendimentoModel.create b2 (AtendimentoRoutes.run atendimentoModel rs db1)
  = (Return (Some r2), db2) →
  (id r1 < id r2)%Z.
Proof.
  intros H1 H2.
  destruct (create_inv _ _ _ _ H1) as (_ & d1 & _ & _ & _ & _ & Hseq1).
  destruct (create_inv _ _ _ _ H2) as (_ & d2 & _ & -> & _).
  destruct (run_sound rs db1) as [_ Hmono]. cbn [id]. lia.
Qed.

(** X4.  A successful [create] adds exactly one row and touches no other:
    every other id reads as before, the table has one row more, and the
    listing of [findAll] is the old listing and the new row, rearranged. *)
Theorem create_adds_one_row (atendimentoData : object) (db db' : Database) (r : row) :
  AtendimentoModel.create atendimentoData db = (Return (Some r), db') →
  (∀ j, j ≠ id r → atendimento db' !! j = atendimento db !! j)
  ∧ atendimento db' !! id r = Some (cols r)
  ∧ size (atendimento db') = Datatypes.S (size (atendimento db))
  ∧ ∃ before after,
      AtendimentoModel.findAll db = (Return before, received SELECT_ordered db)
      ∧ AtendimentoModel.findAll db' = (Return after, received SELECT_ordered db')
      ∧ after ≡ₚ r :: before.
Proof.
  intros Hc.
  destruct (create_inv _ _ _ _ Hc) as (_ & d & _ & Hr & Hfree & Ht & _).
  assert (atendimento db !! id r = None) as Hfree' by (by rewrite Hr).
  split; [intros j Hj; by rewrite Ht, lookup_insert_ne|].
  split; [by rewrite Ht, lookup_insert_eq|].
  split; [by rewrite Ht, map_size_insert_None|].
  exists (merge_sort order_by (table_rows (atendimento db))),
         (merge_sort order_by (table_rows (atendimento db'))).
  do 2 (split; [apply findAll_unfold|]).
  rewrite !merge_sort_Permutation, Ht. unfold table_rows.
  rewrite map_to_list_insert by done. by destruct r.
Qed.

(** X5.  Of two records with the same date, the one inserted last is
    listed first. *)
Theorem same_date_newest_first
    (b1 b2 : object) (db db1 db2 : Database) (r1 r2 : row) :
  AtendimentoModel.create b1 db = (Return (Some r1), db1) →
  AtendimentoModel.create b2 db1 = (Return (Some r2), db2) →
  data (cols r1) = data (cols r2) →
  ∃ listing i j,
    AtendimentoModel.findAll db2 = (Return listing, received SELECT_ordered db2)
    ∧ (i < j)%nat
    ∧ listing !! i = Some r2
    ∧ listing !! j = Some r1.
Proof.
  intros H1 H2 Hdate.
  destruct (create_inv _ _ _ _ H1) as (_ & d1 & _ & _ & _ & Ht1 & Hseq1).
  destruct (create_inv _ _ _ _ H2) as (_ & d2 & _ & Hr2 & _ & Ht2 & _).
  assert (id r2 = (id r1 + 1)%Z) as Hid by (rewrite Hr2; cbn [id]; lia).
  destruct (findAll_rows db2 _ eq_refl) as (Hin & _ & Hord).
  assert (atendimento db2 !! id r1 = Some (cols r1)) as Hrow1
    by (rewrite Ht2, Ht1, lookup_insert_ne, lookup_insert_eq by lia; done).
  assert (atendimento db2 !! id r2 = Some (cols r2)) as Hrow2
    by (by rewrite Ht2, lookup_insert_eq).
  apply Hin, list_elem_of_lookup_1 in Hrow1 as [j Hj].
  apply Hin, list_elem_of_lookup_1 in Hrow2 as [i Hi].
  exists (merge_sort order_by (table_rows (atendimento db2))), i, j.
  split; [apply findAll_unfold|]. split; [|done].
  destruct (lt_eq_lt_dec i j) as [[?|E]|Hji]; [done|..].
  - subst j. rewrite Hi in Hj. injection Hj as ->. lia.
  - pose proof (Hord _ _ _ _ Hji Hj Hi). lia.
Qed.

End rows.

(** ** Update and delete *)

Section update_delete.
Context `{!Postgres} `{!AtendimentoController.Locale}.


(** X7.  Deleting a stored row removes that row and no other, and does
    not move the sequence; afterwards the same id is gone: a second
    DELETE and a GET of it are answered 404. *)
Theorem delete_then_not_found
    (i : Z) (c : columns) (db : Database) (now : jsstring)
    (req : AtendimentoController.request) :
  atendimento db !! i = Some c →
  AtendimentoController.id_param req = Some i →
  ∃ res db',
    AtendimentoController.deleteAtendimento atendimentoModel now req db = (res, db')
    ∧ AtendimentoController.status res = 200%Z
    ∧ atendimento db' !! i = None
    ∧ (∀ j, j ≠ i → atendimento db' !! j = atendimento db !! j)
    ∧ atendimento_id_seq db' = atendimento_id_seq db
    ∧ (AtendimentoModel.delete i db').1 = Return None
    ∧ AtendimentoController.status
        (AtendimentoController.deleteAtendimento atendimentoModel now req db').1 = 404%Z
    ∧ AtendimentoController.status
        (AtendimentoController.getAtendimentoById atendimentoModel now req db').1 = 404%Z.
Proof.
  intros Hrow Hid.
  set (db' := with_table (delete i (atendimento db)) (received (DELETE i) db)).
  assert (atendimento db' !! i = None) as Hgone by apply lookup_delete_eq.
  eexists _, db'. split.
  { unfold AtendimentoController.deleteAtendimento. rewrite Hid.
    cbn [Model.delete atendimentoModel]. by rewrite delete_unfold, Hrow. }
  split; [done|]. split; [done|].
  split; [intros j Hj; by apply lookup_delete_ne|].
  split; [done|]. split; [by rewrite delete_unfold, Hgone|]. split.
  - unfold AtendimentoController.deleteAtendimento. rewrite Hid.
    cbn [Model.delete atendimentoModel]. by rewrite delete_unfold, Hgone.
  - unfold AtendimentoController.getAtendimentoById. rewrite Hid.
    cbn [Model.findById atendimentoModel]. by rewrite findById_unfold, Hgone.
Qed.

End update_delete.

(** ** How the controller answers *)

Section answers.
Context `{!Postgres} `{!AtendimentoController.Locale}.

Lemma startsWith_app (p s : jsstring) : startsWith (p ++ s) p = true.
Proof.
  induction p as [|c p IH]; [by destruct s|].
  simpl. by rewrite N.eqb_refl, IH.
Qed.

Lemma includes_prefix (p s : jsstring) : includes (p ++ s) p = true.
Proof.
  destruct p as [|c p]; [by destruct s|].
  pose proof (startsWith_app (c :: p) s) as Hp.
  change ((c :: p) ++ s) with (c :: (p ++ s)) in *.
  cbn [includes]. by rewrite Hp.
Qed.

(** X8.  A body that fails validation is answered 400 by POST and by PUT
    (whatever row the id names), with the thrown message, the joined
    validation messages after "Validation failed: ", as the one entry of
    [errors]; the store receives nothing. *)
Theorem invalid_body_answers_400
    (s : object) (v : AtendimentoModel.validation) (db : Database)
    (now : jsstring) (req : AtendimentoController.request) :
  AtendimentoModel.sanitizeAtendimentoData (AtendimentoController.body req) = Return s →
  AtendimentoModel.validateAtendimentoData s = Return v →
  AtendimentoModel.isValid v = false →
  let bad_request :=
    {| AtendimentoController.status := 400;
       AtendimentoController.json :=
         {| AtendimentoController.success := false;
            AtendimentoController.data_ := AtendimentoController.null;
            AtendimentoController.message_ := js "Validation error";
            AtendimentoController.errors :=
              [js "Validation failed: " ++ join (js ", ") (AtendimentoModel.errors v)];
            AtendimentoController.timestamp := now |} |} in
  AtendimentoController.createAtendimento atendimentoModel now req db = (bad_request, db)
  ∧ (∀ i, AtendimentoController.id_param req = Some i →
          AtendimentoController.updateAtendimento atendimentoModel now req db
          = (bad_request, db)).
Proof.
  intros Hs Hv Hvalid bad_request.
  assert (includes (js "Validation failed: " ++ join (js ", ") (AtendimentoModel.errors v))
                   (js "Validation failed") = true) as Hinc.
  { change (js "Validation failed: ") with (js "Validation failed" ++ js ": ").
    rewrite <- app_assoc. apply includes_prefix. }
  split; [|intros i Hid].
  - unfold AtendimentoController.createAtendimento.
    cbn [Model.create atendimentoModel].
    rewrite create_unfold, Hs, Hv, Hvalid.
    unfold AtendimentoModel.validation_failed. cbn [message]. by rewrite Hinc.
  - unfold AtendimentoController.updateAtendimento. rewrite Hid.
    cbn [Model.update atendimentoModel].
    rewrite update_unfold, Hs, Hv, Hvalid.
    unfold AtendimentoModel.validation_failed. cbn [message]. by rewrite Hinc.
Qed.

Lemma sanitize_throws_message (data : object) (e : exn) :
  AtendimentoModel.sanitizeAtendimentoData data = Throw e →
  e = TypeError (js "data.nome.trim is not a function")
  ∨ e = TypeError (js "data.profissional.trim is not a function")
  ∨ e = TypeError (js "data.observacoes.trim is not a function").
Proof.
  unfold AtendimentoModel.sanitizeAtendimentoData.
  destruct (text_or_falsy (get data (js "nome"))) eqn:Hn;
    [rewrite (trim_or_empty_text _ _ Hn)
    |rewrite (trim_or_empty_throws _ _ Hn); intros [= <-]; left; by vm_compute].
  destruct (text_or_falsy (get data (js "profissional"))) eqn:Hp;
    [rewrite (trim_or_empty_text _ _ Hp)
    |rewrite (trim_or_empty_throws _ _ Hp); intros [= <-]; right; left; by vm_compute].
  destruct (text_or_falsy (get data (js "observacoes"))) eqn:Ho;
    [by rewrite (trim_or_empty_text _ _ Ho)
    |rewrite (trim_or_empty_throws _ _ Ho); intros [= <-]; right; right; by vm_compute].
Qed.

(** X9.  A body on which sanitization throws (a text field holding a
    truthy value that is no string) is answered 500, not 400, by POST and
    by PUT, with the TypeError's message as the one entry of [errors]; the
    store receives nothing. *)
Theorem unsanitizable_body_answers_500
    (e : exn) (db : Database) (now : jsstring) (req : AtendimentoController.request) :
  AtendimentoModel.sanitizeAtendimentoData (AtendimentoController.body req) = Throw e →
  let failure (text : jsstring) :=
    {| AtendimentoController.status := 500;
       AtendimentoController.json :=
         {| AtendimentoController.success := false;
            AtendimentoController.data_ := AtendimentoController.null;
            AtendimentoController.message_ := text;
            AtendimentoController.errors := [message e];
            AtendimentoController.timestamp := now |} |} in
  (∃ m, e = TypeError m)
  ∧ AtendimentoController.createAtendimento atendimentoModel now req db
    = (failure (js "Error creating atendimento"), db)
  ∧ (∀ i, AtendimentoController.id_param req = Some i →
          AtendimentoController.updateAtendimento atendimentoModel now req db
          = (failure (js "Error updating atendimento"), db)).
Proof.
  intros Hs failure.
  assert (includes (message e) (js "Validation failed") = false) as Hinc
    by (destruct (sanitize_throws_message _ _ Hs) as [->|[->| ->]]; by vm_compute).
  split; [destruct (sanitize_throws_message _ _ Hs) as [->|[->| ->]]; by eexists|].
  split; [|intros i Hid].
  - unfold AtendimentoController.createAtendimento.
    cbn [Model.create atendimentoModel]. by rewrite create_unfold, Hs, Hinc.
  - unfold AtendimentoController.updateAtendimento. rewrite Hid.
    cbn [Model.update atendimentoModel]. by rewrite update_unfold, Hs, Hinc.
Qed.

(** X10.  Whatever the model does, each of the five handlers answers with
    the one envelope: [success] is true exactly under status 200 or 201
    and then [errors] is empty; otherwise the status is 400, 404 or 500
    and [data] is null; [timestamp] is the reading of the clock. *)
Theorem every_answer_is_an_envelope
    {S : Type} (m : Model.ops S) (now : jsstring)
    (req : AtendimentoController.request) (s : S) :
  let well_formed (res : AtendimentoController.response) :=
    AtendimentoController.timestamp (AtendimentoController.json res) = now
    ∧ (if AtendimentoController.success (AtendimentoController.json res)
       then AtendimentoController.status res ∈ [200; 201]%Z
            ∧ AtendimentoController.errors (AtendimentoController.json res) = []
       else AtendimentoController.status res ∈ [400; 404; 500]%Z
            ∧ AtendimentoController.data_ (AtendimentoController.json res)
              = AtendimentoController.null) in
  well_formed (AtendimentoController.getAllAtendimentos m now req s).1
  ∧ well_formed (AtendimentoController.getAtendimentoById m now req s).1
  ∧ well_formed (AtendimentoController.createAtendimento m now req s).1
  ∧ well_formed (AtendimentoController.updateAtendimento m now req s).1
  ∧ well_formed (AtendimentoController.deleteAtendimento m now req s).1.
Proof.
  intros well_formed. subst well_formed.
  unfold AtendimentoController.getAllAtendimentos,
    AtendimentoController.getAtendimentoById,
    AtendimentoController.createAtendimento,
    AtendimentoController.updateAtendimento,
    AtendimentoController.deleteAtendimento.
  destruct (AtendimentoController.id_param req) as [id|].
  all: repeat lazymatch goal with
       | |- _ ∧ _ => split
       | |- context [Model.findAll ?a ?b] =>
           destruct (Model.findAll a b) as [[?|?] ?]
       | |- context [Model.findById ?a ?i ?b] =>
           destruct (Model.findById a i b) as [[[?|]|?] ?]
       | |- context [Model.create ?a ?c ?b] =>
           destruct (Model.create a c b) as [[?|?] ?]
       | |- context [Model.update ?a ?i ?c ?b] =>
           destruct (Model.update a i c b) as [[[?|]|?] ?]
       | |- context [Model.delete ?a ?i ?b] =>
           destruct (Model.delete a i b) as [[[?|]|?] ?]
       | |- context [includes ?a ?b] => destruct (includes a b)
       | |- _ => cbn [fst AtendimentoController.json AtendimentoController.status
                      AtendimentoController.success AtendimentoController.errors
                      AtendimentoController.data_ AtendimentoController.timestamp
                      AtendimentoController.formatResponse
                      AtendimentoController.invalid_id AtendimentoController.not_found];
                 first [ reflexivity | set_solver ]
       end.
Qed.

(** X11.  GET /atendimentos is always answered 200: [data] holds one entry
    per stored row, in the order of [findAll] (latest date first), each
    with its date as a display string; the table is as before. *)
Theorem getAllAtendimentos_lists_every_row
    (now : jsstring) (req : AtendimentoController.request) (db : Database) :
  ∃ listing,
    AtendimentoController.getAllAtendimentos atendimentoModel now req db
    = ({| AtendimentoController.status := 200;
          AtendimentoController.json :=
            {| AtendimentoController.success := true;
               AtendimentoController.data_ :=
                 AtendimentoController.many
                   ((λ r, AtendimentoController.formatAtendimentoResponse (Some r))
                      <$> listing);
               AtendimentoController.message_ :=
                 js "Atendimentos retrieved successfully";
               AtendimentoController.errors := [];
               AtendimentoController.timestamp := now |} |},
       received SELECT_ordered db)
    ∧ length listing = size (atendimento db)
    ∧ (∀ r, r ∈ listing ↔ atendimento db !! id r = Some (cols r))
    ∧ NoDup listing
    ∧ (∀ i j ri rj, (i < j)%nat → listing !! i = Some ri → listing !! j = Some rj →
         (data (cols rj) < data (cols ri)
          ∨ (data (cols ri) = data (cols rj) ∧ id rj < id ri))%Z).
Proof.
  exists (merge_sort order_by (table_rows (atendimento db))).
  destruct (findAll_rows db _ eq_refl) as (Hin & Hperm & Hord).
  split; [reflexivity|]. split; [|split; [done|split; [|done]]].
  - rewrite Hperm. unfold table_rows. by rewrite length_fmap, length_map_to_list.
  - rewrite Hperm. apply table_rows_NoDup.
Qed.

End answers.

(** ** Ids through the URL *)

Section ids.
Local Open Scope Z_scope.









End ids.

(** ** The client's checks and the server's *)

Section client.

Lemma or_empty_trim (x : option jsstring) :
  trim (App.or_empty (trim <$> x)) = App.or_empty (trim <$> x).
Proof.
  destruct x as [s|]; [|done]. simpl.
  destruct (trim s) as [|c t] eqn:E; [done|]. rewrite <- E. apply trim_idem.
Qed.

Lemma client_validate_text (data : object) :
  text_or_falsy (get data (js "nome")) = true →
  text_or_falsy (get data (js "profissional")) = true →
  ∃ errors,
    App.validateFormData data
    = Return {| AtendimentoModel.isValid :=
                  negb (violated data nome_required)
                  && negb (violated data profissional_required)
                  && negb (violated data data_required)
                  && negb (missing (get data (js "tipo")));
                AtendimentoModel.errors := errors |}.
Proof.
  intros Hn Hp. unfold App.validateFormData.
  rewrite !falsy_or_blank_text by done. cbn [bind pure violated].
  fold (missing (get data (js "data"))). fold (missing (get data (js "tipo"))).
  destruct (missing (get data (js "nome")) || blank_after_trim (get data (js "nome")));
  destruct (missing (get data (js "profissional"))
            || blank_after_trim (get data (js "profissional")));
  destruct (missing (get data (js "data")));
  destruct (missing (get data (js "tipo"))).
  all: eexists; reflexivity.
Qed.

(** X13.  What the page sends after [sanitizeFormData] is already
    sanitized for the server: [sanitizeAtendimentoData] gives it back
    unchanged.  Neither validation throws on it, and the server accepts it
    exactly when the client does and tipo is one of the three allowed
    values (the client only asks for some tipo). *)
Theorem client_form_is_sanitized_for_server (formData : App.FormData) :
  let data := App.sanitizeFormData formData in
  AtendimentoModel.sanitizeAtendimentoData data = Return data
  ∧ ∃ c v,
      App.validateFormData data = Return c
      ∧ AtendimentoModel.validateAtendimentoData data = Return v
      ∧ (AtendimentoModel.isValid v = true
         ↔ AtendimentoModel.isValid c = true
           ∧ AtendimentoModel.tiposValidos_includes (get data (js "tipo")) = true).
Proof.
  intros data.
  assert (text_or_falsy (get data (js "nome")) = true) as Hn by reflexivity.
  assert (text_or_falsy (get data (js "profissional")) = true) as Hp by reflexivity.
  assert (text_or_falsy (get data (js "observacoes")) = true) as Ho by reflexivity.
  split.
  - rewrite sanitize_text by done. subst data. unfold App.sanitizeFormData.
    autorewrite with record_fields. cbn [trimmed]. by rewrite !or_empty_trim.
  - destruct (client_validate_text data Hn Hp) as (errors & Hc).
    eexists _, _. split; [exact Hc|]. split; [by apply validate_text|].
    cbn [AtendimentoModel.isValid]. unfold rules. cbn [forallb].
    rewrite tiposValidos_includes_allowed.
    change (violated data tipo_allowed)
      with (missing (get data (js "tipo")) || outside_allowed_tipos (get data (js "tipo"))).
    pose proof (allowed_tipo_not_missing (get data (js "tipo"))) as Hallowed.
    destruct (violated data nome_required), (violated data profissional_required),
      (violated data data_required), (missing (get data (js "tipo"))),
      (outside_allowed_tipos (get data (js "tipo"))); simpl; try tauto;
      try (split; [done|intros [? ?]; done]).
    all: specialize (Hallowed eq_refl); done.
Qed.

End client.

(** ** Blank names *)

Section blank.

Lemma trimStart_nil_iff (s : jsstring) :
  trimStart s = [] ↔ Forall (λ c, isWhiteSpace c = true) s.
Proof.
  induction s as [|c s IH]; [done|]. simpl. rewrite Forall_cons.
  destruct (isWhiteSpace c) eqn:E.
  - rewrite IH. tauto.
  - split; [done|]. intros [? _]. done.
Qed.

Lemma trimStart_suffix_ws (s : jsstring) :
  ∃ k, s = k ++ trimStart s ∧ Forall (λ c, isWhiteSpace c = true) k.
Proof.
  induction s as [|c s (k & IH & Hk)]; [by exists []|].
  simpl. destruct (isWhiteSpace c) eqn:E.
  - exists (c :: k). split; [simpl; by f_equal|by constructor].
  - by exists [].
Qed.

Lemma trim_nil_iff (s : jsstring) :
  trim s = [] ↔ Forall (λ c, isWhiteSpace c = true) s.
Proof.
  unfold trim, trimEnd. split.
  - intros E. apply (f_equal reverse) in E.
    rewrite reverse_involutive in E. change (reverse []) with (@nil N) in E.
    apply trimStart_nil_iff, Forall_reverse in E.
    rewrite reverse_involutive in E.
    destruct (trimStart_suffix_ws s) as (k & Hs & Hk).
    assert (Forall (λ c, isWhiteSpace c = true) (k ++ trimStart s)) as Hall
      by (by apply Forall_app).
    by rewrite <- Hs in Hall.
  - intros Hall. apply trimStart_nil_iff in Hall. by rewrite Hall.
Qed.

(** X14.  A name is turned down exactly when it holds nothing but white
    space: for a string nome, "Nome é obrigatório" is among the errors if
    and only if every code unit of nome is white space (the empty name
    included). *)
Theorem blank_name_is_all_white_space (data : object) (s : jsstring) :
  get data (js "nome") = VString s →
  text_or_falsy (get data (js "profissional")) = true →
  ∃ v, AtendimentoModel.validateAtendimentoData data = Return v
    ∧ (js "Nome é obrigatório" ∈ AtendimentoModel.errors v
       ↔ Forall (λ c, isWhiteSpace c = true) s).
Proof.
  intros Hnome Hp. eexists. split; [apply validate_text; by rewrite ?Hnome|].
  cbn [AtendimentoModel.errors].
  rewrite list_elem_of_fmap.
  assert (violated data nome_required = true
          ↔ Forall (λ c, isWhiteSpace c = true) s) as Hblank.
  { cbn [violated]. rewrite Hnome. unfold missing. cbn [ToBoolean blank_after_trim].
    rewrite negb_involutive, orb_true_iff, !bool_decide_eq_true, <- trim_nil_iff.
    split; [intros [->|?]; done|by right]. }
  rewrite <- Hblank. split.
  - intros (r & Hr & Hin). apply list_elem_of_filter in Hin as [Hviol _].
    change (js "Nome é obrigatório") with (rule_message nome_required) in Hr.
    by apply rule_message_inj in Hr as <-.
  - intros Hviol. exists nome_required. split; [done|].
    apply list_elem_of_filter. split; [done|]. unfold rules.
    rewrite elem_of_cons. by left.
Qed.

End blank.

(** ** A record's way through the router *)

Section journey.
Context `{!Postgres} `{!AtendimentoController.Locale}.
Local Open Scope Z_scope.



End journey.

(** ** What can go wrong, and what it leaves behind *)

Section failures.
Context `{!Postgres} `{!AtendimentoController.Locale}.


(** X17.  A request that is not answered with success writes nothing: on
    any store, whatever the router serves, either the answer has
    [success] true or the table holds what it held before; a request no
    route matches leaves the store as it is. *)
Theorem failed_requests_write_nothing (r : AtendimentoRoutes.incoming) (db : Database) :
  match AtendimentoRoutes.serve atendimentoModel r db with
  | (Some res, db') =>
      AtendimentoController.success (AtendimentoController.json res) = true
      ∨ atendimento db' = atendimento db
  | (None, db') => db' = db
  end.
Proof.
  unfold AtendimentoRoutes.serve, AtendimentoRoutes.route,
    AtendimentoRoutes.asyncHandler.
  destruct r as [[] [|id [|? ?]] b now];
    cbn [AtendimentoRoutes.verb AtendimentoRoutes.path AtendimentoRoutes.body
         AtendimentoRoutes.clock]; try reflexivity.
  - unfold AtendimentoController.getAllAtendimentos.
    cbn [Model.findAll atendimentoModel]. rewrite findAll_unfold. by left.
  - unfold AtendimentoController.getAtendimentoById.
    destruct (AtendimentoController.id_param _) as [i|]; [|by right].
    cbn [Model.findById atendimentoModel]. rewrite findById_unfold.
    destruct (atendimento db !! i); [by left|by right].
  - unfold AtendimentoController.createAtendimento.
    cbn [Model.create atendimentoModel AtendimentoController.body].
    destruct (accepted_or_not b) as [Hacc|Hno].
    + destruct (create_accepted b db Hacc) as (s & _ & ->).
      destruct (date_in (get b (js "data"))) as [d|].
      * cbn zeta. destruct (atendimento db !! atendimento_id_seq db).
        -- destruct (includes _ _); by right.
        -- by left.
      * destruct (includes _ _); by right.
    + destruct (create_not_accepted b db Hno) as (e & -> & _).
      destruct (includes _ _); by right.
  - unfold AtendimentoController.updateAtendimento.
    destruct (AtendimentoController.id_param _) as [i|]; [|by right].
    cbn [Model.update atendimentoModel AtendimentoController.body].
    destruct (accepted_or_not b) as [Hacc|Hno].
    + destruct (update_accepted i b db Hacc) as (s & _ & ->).
      destruct (date_in (get b (js "data"))) as [d|].
      * destruct (atendimento db !! i); [by left|by right].
      * destruct (includes _ _); by right.
    + destruct (create_not_accepted b db Hno) as (e & _ & Hu). rewrite Hu.
      destruct (includes _ _); by right.
  - unfold AtendimentoController.deleteAtendimento.
    destruct (AtendimentoController.id_param _) as [i|]; [|by right].
    cbn [Model.delete atendimentoModel]. rewrite delete_unfold.
    destruct (atendimento db !! i) eqn:Hrow; [by left|right].
    cbn [fmap option_fmap option_map with_table received atendimento].
    by apply delete_id.
Qed.

End failures.

(** ** The further properties on the concrete store *)

Section further_runs.
Local Open Scope Z_scope.
#[local] Existing Instance Fixture.postgres.
#[local] Existing Instance Fixture.locale.




(** X3: a row is created and deleted; the next one gets id 2, not 1. *)
Lemma ids_are_never_reused_witness :
  ∃ db1 db2,
    AtendimentoModel.create Fixture.ana empty_database
    = (Return (Some (Fixture.stored 1 "Ana" 19783)), db1)
    ∧ atendimento
        (AtendimentoRoutes.run atendimentoModel
           [Sample.request AtendimentoRoutes.DELETE ["1"%string] []] db1) = ∅
    ∧ AtendimentoModel.create (Fixture.visit "Bia" "2024-06-01")
        (AtendimentoRoutes.run atendimentoModel
           [Sample.request AtendimentoRoutes.DELETE ["1"%string] []] db1)
      = (Return (Some (Fixture.stored 2 "Bia" 19875)), db2)
    ∧ id (Fixture.stored 1 "Ana" 19783) < id (Fixture.stored 2 "Bia" 19875).
Proof.
  set (db1 := (AtendimentoModel.create Fixture.ana empty_database).2).
  set (db2 := (AtendimentoModel.create (Fixture.visit "Bia" "2024-06-01")
                 (AtendimentoRoutes.run atendimentoModel
                    [Sample.request AtendimentoRoutes.DELETE ["1"%string] []] db1)).2).
  assert (AtendimentoModel.create Fixture.ana empty_database
          = (Return (Some (Fixture.stored 1 "Ana" 19783)), db1)) as H1
    by (by vm_compute).
  assert (AtendimentoModel.create (Fixture.visit "Bia" "2024-06-01")
            (AtendimentoRoutes.run atendimentoModel
               [Sample.request AtendimentoRoutes.DELETE ["1"%string] []] db1)
          = (Return (Some (Fixture.stored 2 "Bia" 19875)), db2)) as H2
    by (by vm_compute).
  exists db1, db2. split; [exact H1|]. split; [by vm_compute|]. split; [exact H2|].
  exact (ids_are_never_reused _ _ _ _ _ _ _ _ H1 H2).
Defined.

(** X4: a second row beside the first. *)
Lemma create_adds_one_row_witness :
  ∃ db1 db2,
    AtendimentoModel.create Fixture.ana empty_database
    = (Return (Some (Fixture.stored 1 "Ana" 19783)), db1)
    ∧ AtendimentoModel.create (Fixture.visit "Bia" "2024-06-01") db1
      = (Return (Some (Fixture.stored 2 "Bia" 19875)), db2)
    ∧ atendimento db2 !! 1 = atendimento db1 !! 1
    ∧ size (atendimento db2) = Datatypes.S (size (atendimento db1)).
Proof.
  set (db1 := (AtendimentoModel.create Fixture.ana empty_database).2).
  set (db2 := (AtendimentoModel.create (Fixture.visit "Bia" "2024-06-01") db1).2).
  assert (AtendimentoModel.create Fixture.ana empty_database
          = (Return (Some (Fixture.stored 1 "Ana" 19783)), db1)) as H1
    by (by vm_compute).
  assert (AtendimentoModel.create (Fixture.visit "Bia" "2024-06-01") db1
          = (Return (Some (Fixture.stored 2 "Bia" 19875)), db2)) as H2
    by (by vm_compute).
  destruct (create_adds_one_row _ _ _ _ H2) as (Hother & _ & Hsize & _).
  exists db1, db2. split; [exact H1|]. split; [exact H2|].
  split; [|exact Hsize].
  apply Hother. cbn [id Fixture.stored]. lia.
Defined.

(** X5: two visits on 2024-03-01; the second one is listed first. *)
Lemma same_date_newest_first_witness :
  ∃ db1 db2 listing i j,
    AtendimentoModel.create Fixture.ana empty_database
    = (Return (Some (Fixture.stored 1 "Ana" 19783)), db1)
    ∧ AtendimentoModel.create (Fixture.visit "Bia" "2024-03-01") db1
      = (Return (Some (Fixture.stored 2 "Bia" 19783)), db2)
    ∧ AtendimentoModel.findAll db2 = (Return listing, received SELECT_ordered db2)
    ∧ (i < j)%nat
    ∧ listing !! i = Some (Fixture.stored 2 "Bia" 19783)
    ∧ listing !! j = Some (Fixture.stored 1 "Ana" 19783).
Proof.
  set (db1 := (AtendimentoModel.create Fixture.ana empty_database).2).
  set (db2 := (AtendimentoModel.create (Fixture.visit "Bia" "2024-03-01") db1).2).
  assert (AtendimentoModel.create Fixture.ana empty_database
          = (Return (Some (Fixture.stored 1 "Ana" 19783)), db1)) as H1
    by (by vm_compute).
  assert (AtendimentoModel.create (Fixture.visit "Bia" "2024-03-01") db1
          = (Return (Some (Fixture.stored 2 "Bia" 19783)), db2)) as H2
    by (by vm_compute).
  destruct (same_date_newest_first _ _ _ _ _ _ _ H1 H2 eq_refl)
    as (listing & i & j & Hl & Hij & Hi & Hj).
  exists db1, db2, listing, i, j.
  split; [exact H1|]. split; [exact H2|]. split; [exact Hl|].
  split; [exact Hij|]. split; [exact Hi|exact Hj].
Defined.


(** X7: the row of Ana is deleted; GET /atendimento/1 then answers 404. *)
Lemma delete_then_not_found_witness :
  ∃ db1 res db',
    AtendimentoModel.create Fixture.ana empty_database
    = (Return (Some (Fixture.stored 1 "Ana" 19783)), db1)
    ∧ AtendimentoController.deleteAtendimento atendimentoModel Fixture.now
        (Fixture.on_id "1" []) db1 = (res, db')
    ∧ AtendimentoController.status res = 200
    ∧ atendimento db' !! 1 = None
    ∧ AtendimentoController.status
        (AtendimentoController.getAtendimentoById atendimentoModel Fixture.now
           (Fixture.on_id "1" []) db').1 = 404.
Proof.
  set (db1 := (AtendimentoModel.create Fixture.ana empty_database).2).
  assert (AtendimentoModel.create Fixture.ana empty_database
          = (Return (Some (Fixture.stored 1 "Ana" 19783)), db1)) as H1
    by (by vm_compute).
  assert (atendimento db1 !! 1 = Some (cols (Fixture.stored 1 "Ana" 19783))) as Hrow
    by (by vm_compute).
  assert (AtendimentoController.id_param (Fixture.on_id "1" []) = Some 1) as Hid
    by (by vm_compute).
  destruct (delete_then_not_found 1 _ db1 Fixture.now (Fixture.on_id "1" []) Hrow Hid)
    as (res & db' & Hdel & Hstatus & Hgone & _ & _ & _ & _ & Hget).
  exists db1, res, db'. split; [exact H1|]. split; [exact Hdel|].
  split; [exact Hstatus|]. split; [exact Hgone|exact Hget].
Defined.

(** X8 on a body with a blank name, no date and a type outside the set. *)
Lemma invalid_body_answers_400_witness :
  ∃ res,
    AtendimentoController.createAtendimento atendimentoModel Fixture.now
      (Fixture.no_id Fixture.incomplete) empty_database = (res, empty_database)
    ∧ AtendimentoController.status res = 400
    ∧ AtendimentoController.errors (AtendimentoController.json res)
      = [js "Validation failed: Nome é obrigatório, Data é obrigatória, Tipo deve ser: Psicológico, Pedagógico ou Assistência Social"].
Proof.
  pose (s := match AtendimentoModel.sanitizeAtendimentoData Fixture.incomplete with
             | Return s => s
             | Throw _ => []
             end).
  pose (v := match AtendimentoModel.validateAtendimentoData s with
             | Return v => v
             | Throw _ => {| AtendimentoModel.isValid := true;
                             AtendimentoModel.errors := [] |}
             end).
  assert (AtendimentoModel.sanitizeAtendimentoData
            (AtendimentoController.body (Fixture.no_id Fixture.incomplete)) = Return s)
    as Hs by (by vm_compute).
  assert (AtendimentoModel.validateAtendimentoData s = Return v) as Hv
    by (by vm_compute).
  assert (AtendimentoModel.isValid v = false) as Hvalid by (by vm_compute).
  destruct (invalid_body_answers_400 s v empty_database Fixture.now
              (Fixture.no_id Fixture.incomplete) Hs Hv Hvalid) as [Hc _].
  eexists. split; [exact Hc|]. split; [reflexivity|by vm_compute].
Defined.

(** X9 on a body whose nome is [true]. *)
Lemma unsanitizable_body_answers_500_witness :
  ∃ res,
    AtendimentoModel.sanitizeAtendimentoData [(js "nome", VBoolean true)]
    = Throw (TypeError (js "data.nome.trim is not a function"))
    ∧ AtendimentoController.createAtendimento atendimentoModel Fixture.now
        (Fixture.no_id [(js "nome", VBoolean true)]) empty_database
      = (res, empty_database)
    ∧ AtendimentoController.status res = 500
    ∧ AtendimentoController.errors (AtendimentoController.json res)
      = [js "data.nome.trim is not a function"].
Proof.
  assert (AtendimentoModel.sanitizeAtendimentoData [(js "nome", VBoolean true)]
          = Throw (TypeError (js "data.nome.trim is not a function"))) as Hs
    by (by vm_compute).
  destruct (unsanitizable_body_answers_500 _ empty_database Fixture.now
              (Fixture.no_id [(js "nome", VBoolean true)]) Hs) as (_ & Hc & _).
  eexists. split; [exact Hs|]. split; [exact Hc|]. split; reflexivity.
Defined.


(** X14 on a name of three spaces. *)
Lemma blank_name_is_all_white_space_witness :
  ∃ v,
    AtendimentoModel.validateAtendimentoData Fixture.incomplete = Return v
    ∧ js "Nome é obrigatório" ∈ AtendimentoModel.errors v.
Proof.
  assert (get Fixture.incomplete (js "nome") = VString (js "   ")) as Hnome
    by (by vm_compute).
  assert (text_or_falsy (get Fixture.incomplete (js "profissional")) = true) as Hp
    by (by vm_compute).
  destruct (blank_name_is_all_white_space Fixture.incomplete (js "   ") Hnome Hp)
    as (v & Hv & Hiff).
  exists v. split; [exact Hv|]. apply Hiff.
  assert (js "   " = [0x20; 0x20; 0x20]%N) as -> by (by vm_compute).
  repeat (constructor; [by vm_compute|]). constructor.
Defined.


End further_runs.
